(** * insta_cli server: credential transport, session lifecycle, DM normalisation

    A shallow embedding of the Python server of the repository
    (server/main.py, server/crypto.py, server/instagram/*.py and
    server/models/*.py) together with the properties its specification
    states about it.

    Conventions of the embedding.
    - A Python [Optional[T]] is an [option T]; [None] is [None].
    - A Python truth test [if x:] is written with the functions of module
      [Py]: an optional string is true when it is not [None] and not empty,
      a list when it is not empty, an object (a pydantic model, a datetime,
      a validated URL) when it is not [None].
    - Python [int] is [Z]; [str] is [string].
    - Code that raises is a computation in the monad [M]: it takes the
      process state and returns a [result] (a value or the exception raised)
      with the state it leaves behind.  An exception does not roll the state
      back, as in Python.
    - The upstream library (instagrapi) and the RSA primitives are not part
      of the repository; they are an [Env] of oracles.  Every call of an
      upstream capability is appended to the call log of the state, and the
      oracle sees the log, so an upstream may answer differently over time. *)

From Stdlib Require Import String Ascii List ZArith Bool Lia DecimalString.
Import ListNotations.
Local Open Scope string_scope.
Local Open Scope Z_scope.

(** ** Python truthiness and the [or] operator *)

Module Py.

(** [bool(s)] for a [str]. *)
Definition truthy_str (s : string) : bool :=
  match s with
  | EmptyString => false
  | String _ _ => true
  end.

(** [bool(x)] for an [Optional[str]]. *)
Definition truthy_ostr (x : option string) : bool :=
  match x with
  | Some s => truthy_str s
  | None => false
  end.

(** [bool(x)] for an optional object whose class defines neither
    [__bool__] nor [__len__]. *)
Definition truthy_obj {A : Type} (x : option A) : bool :=
  match x with
  | Some _ => true
  | None => false
  end.

(** [bool(l)] for a list. *)
Definition truthy_list {A : Type} (l : list A) : bool :=
  match l with
  | [] => false
  | _ :: _ => true
  end.

(** [x or d] for an [Optional[str]] [x] and a [str] [d]. *)
Definition or_str (x : option string) (d : string) : string :=
  match x with
  | Some s => if truthy_str s then s else d
  | None => d
  end.

(** [x or y] for two optional objects that are true when present. *)
Definition or_obj {A : Type} (x y : option A) : option A :=
  match x with
  | Some a => Some a
  | None => y
  end.

(** [getattr(o, name, d)] where the attribute may be missing. *)
Definition getattr {A : Type} (attr : option A) (d : A) : A :=
  match attr with
  | Some a => a
  | None => d
  end.

(** [s.lstrip(chars)] with a one-character [chars]. *)
Fixpoint lstrip (c : ascii) (s : string) : string :=
  match s with
  | EmptyString => EmptyString
  | String a rest => if Ascii.eqb a c then lstrip c rest else s
  end.

(** [dict.get(key, default)] on a dict literal, kept as the list of its
    items in source order. *)
Fixpoint dict_get (d : list (string * string)) (key default : string) : string :=
  match d with
  | [] => default
  | (k, v) :: rest => if String.eqb k key then v else dict_get rest key default
  end.

(** [", ".join(parts)] and the general [sep.join]. *)
Fixpoint join (sep : string) (parts : list string) : string :=
  match parts with
  | [] => ""
  | [p] => p
  | p :: rest => p ++ sep ++ join sep rest
  end.

(** [min] and [max] on [int]. *)
Definition min (a b : Z) : Z := if b <? a then b else a.
Definition max (a b : Z) : Z := if a <? b then b else a.

End Py.

(** ** Upstream records (instagrapi.types)

    The record types of the upstream library are not in the repository.
    Each record below has the fields the parsers read, an attribute that
    may hold [None] or be missing being an [option]. *)

(** A [datetime] of the standard library; always true in a truth test. *)
Inductive datetime : Type := Datetime (epoch_micros : Z).

(** Modelled from the spec: the upstream library's URL type ([HttpUrl], a
    validated URL object); [str_url] is [str(u)].  A URL object is true in
    a truth test whenever it is present. *)
Inductive HttpUrl : Type := Url (text : string).

Definition str_url (u : HttpUrl) : string :=
  match u with Url t => t end.

(** Modelled from the spec: the upstream library's user-like records
    ([Account], [User], [UserShort]): identifier, handle, display name,
    avatar reference, privacy and verification flags. *)
Record IGUser : Type := {
  ig_pk : string;
  ig_username : string;
  ig_full_name : option string;
  ig_profile_pic_url : option HttpUrl;
  ig_is_private : option bool;    (* [None]: the attribute is missing *)
  ig_is_verified : option bool    (* [None]: the attribute is missing *)
}.

(** Modelled from the spec: the upstream library's media reference of a
    message, with its optional video and thumbnail URLs. *)
Record IGDirectMedia : Type := {
  ig_video_url : option HttpUrl;
  ig_thumbnail_url : option HttpUrl
}.

(** Modelled from the spec: the upstream library's link attachment. *)
Record IGLink : Type := {
  ig_link_url : option string;    (* [None]: the attribute is missing *)
  ig_link_title : option string
}.

(** Modelled from the spec: the upstream library's message record
    ([DirectMessage]): identifier, optional sender identifier, timestamp,
    optional item-type tag, optional text, optional media and link. *)
Record IGDirectMessage : Type := {
  ig_id : string;
  ig_user_id : option string;
  ig_timestamp : datetime;
  ig_item_type : option string;
  ig_text : option string;
  ig_media : option IGDirectMedia;
  ig_link : option IGLink         (* [None]: the message has no [link] attribute *)
}.

(** Modelled from the spec: the upstream library's thread record
    ([DirectThread]); [igt_messages] is most-recent-first. *)
Record IGDirectThread : Type := {
  igt_id : string;
  igt_pk : string;
  igt_thread_title : option string;
  igt_users : list IGUser;
  igt_last_activity_at : option datetime;
  igt_is_group : option bool;     (* [None]: the attribute is missing *)
  igt_muted : option bool;
  igt_has_newer : option bool;
  igt_messages : option (list IGDirectMessage)
}.

(** ** The canonical model (server/models) *)

Record User : Type := {
  pk : string;
  username : string;
  full_name : string;
  profile_pic_url : option string;
  is_private : bool;
  is_verified : bool
}.

Record UserShort : Type := {
  us_pk : string;
  us_username : string;
  us_full_name : string;
  us_profile_pic_url : option string
}.

Record DirectMessage : Type := {
  id : string;
  user_id : option string;
  timestamp : datetime;
  item_type : string;
  text : option string;
  is_sent_by_viewer : bool;
  media_url : option string;
  media_type : option string;
  link_url : option string;
  link_title : option string
}.

Record DirectThread : Type := {
  dt_id : string;
  dt_pk : string;
  dt_thread_title : string;
  dt_users : list UserShort;
  dt_last_activity_at : option datetime;
  dt_is_group : bool;
  dt_is_muted : bool;
  dt_has_unread : bool;
  dt_messages : list DirectMessage
}.

Record DirectThreadPreview : Type := {
  tp_id : string;
  tp_pk : string;
  tp_thread_title : string;
  tp_users : list UserShort;
  tp_last_activity_at : option datetime;
  tp_is_group : bool;
  tp_is_muted : bool;
  tp_has_unread : bool;
  last_message_text : option string;
  last_message_type : option string;
  last_message_timestamp : option datetime
}.

(** ** server/instagram/parsers.py *)

Module Parsers.

Definition parse_user (user : IGUser) : User :=
  {| pk := ig_pk user;
     username := ig_username user;
     full_name := Py.or_str (ig_full_name user) "";
     profile_pic_url := option_map str_url (ig_profile_pic_url user);
     is_private := Py.getattr (ig_is_private user) false;
     is_verified := Py.getattr (ig_is_verified user) false |}.

Definition parse_user_short (user : IGUser) : UserShort :=
  {| us_pk := ig_pk user;
     us_username := ig_username user;
     us_full_name := Py.or_str (ig_full_name user) "";
     us_profile_pic_url := option_map str_url (ig_profile_pic_url user) |}.

Definition parse_message (msg : IGDirectMessage) (logged_in_user_pk : option string)
  : DirectMessage :=
  (* Determine if sent by viewer *)
  let is_sent_by_viewer_ :=
    if Py.truthy_ostr logged_in_user_pk && Py.truthy_ostr (ig_user_id msg)
    then match ig_user_id msg, logged_in_user_pk with
         | Some sender, Some viewer => String.eqb sender viewer
         | _, _ => false
         end
    else false in
  (* Extract media info if present *)
  let media_type_ :=
    match ig_media msg with
    | Some media => Some (if Py.truthy_obj (ig_video_url media) then "video" else "photo")
    | None => None
    end in
  let media_url_ :=
    match ig_media msg with
    | Some media =>
        Some (match Py.or_obj (ig_video_url media) (ig_thumbnail_url media) with
              | Some u => str_url u
              | None => ""
              end)
    | None => None
    end in
  (* Extract link info *)
  let is_link :=
    match ig_item_type msg, ig_link msg with
    | Some tag, Some _ => String.eqb tag "link"
    | _, _ => false
    end in
  let link_url_ :=
    if is_link then match ig_link msg with Some l => ig_link_url l | None => None end
    else None in
  let link_title_ :=
    if is_link then match ig_link msg with Some l => ig_link_title l | None => None end
    else None in
  {| id := ig_id msg;
     user_id := if Py.truthy_ostr (ig_user_id msg) then ig_user_id msg else None;
     timestamp := ig_timestamp msg;
     item_type := Py.or_str (ig_item_type msg) "unknown";
     text := ig_text msg;
     is_sent_by_viewer := is_sent_by_viewer_;
     media_url := media_url_;
     media_type := media_type_;
     link_url := link_url_;
     link_title := link_title_ |}.

(** The title: the upstream one, or the handles joined in upstream order. *)
Definition derive_title (thread : IGDirectThread) (users : list UserShort) : string :=
  let thread_title := Py.or_str (igt_thread_title thread) "" in
  if negb (Py.truthy_str thread_title) && Py.truthy_list users
  then Py.join ", " (map us_username users)
  else thread_title.

Definition derive_is_group (thread : IGDirectThread) (users : list UserShort) : bool :=
  match igt_is_group thread with
  | Some g => g
  | None => (1 <? Z.of_nat (length users))
  end.

Definition messages_or_empty (thread : IGDirectThread) : list IGDirectMessage :=
  match igt_messages thread with
  | Some l => l
  | None => []
  end.

Definition parse_thread (thread : IGDirectThread) (logged_in_user_pk : option string)
  : DirectThread :=
  let users := map parse_user_short (igt_users thread) in
  let messages :=
    map (fun m => parse_message m logged_in_user_pk) (messages_or_empty thread) in
  {| dt_id := igt_id thread;
     dt_pk := igt_pk thread;
     dt_thread_title := derive_title thread users;
     dt_users := users;
     dt_last_activity_at := igt_last_activity_at thread;
     dt_is_group := derive_is_group thread users;
     dt_is_muted := Py.getattr (igt_muted thread) false;
     dt_has_unread := Py.getattr (igt_has_newer thread) false;
     dt_messages := messages |}.

(** The dict literal of [parse_thread_preview]. *)
Definition type_previews : list (string * string) :=
  [ ("media", "Photo");
    ("video", "Video");
    ("reel_share", "Shared Reel");
    ("story_share", "Shared Story");
    ("media_share", "Shared Post");
    ("voice_media", "Voice Message");
    ("animated_media", "GIF");
    ("link", "Link");
    ("like", "Liked") ].

Definition parse_thread_preview (thread : IGDirectThread) : DirectThreadPreview :=
  let users := map parse_user_short (igt_users thread) in
  (* Get last message info: [thread.messages[0]] when there is one *)
  let last_msg := hd_error (messages_or_empty thread) in
  let last_msg_type :=
    match last_msg with
    | Some m => Some (Py.or_str (ig_item_type m) "unknown")
    | None => None
    end in
  let last_msg_timestamp :=
    match igt_last_activity_at thread, last_msg with
    | Some t, _ => Some t
    | None, Some m => Some (ig_timestamp m)
    | None, None => None
    end in
  let last_msg_text :=
    match last_msg with
    | Some m =>
        let tag := Py.or_str (ig_item_type m) "unknown" in
        if Py.truthy_ostr (ig_text m) then ig_text m
        else Some (Py.dict_get type_previews tag ("[" ++ tag ++ "]"))
    | None => None
    end in
  {| tp_id := igt_id thread;
     tp_pk := igt_pk thread;
     tp_thread_title := derive_title thread users;
     tp_users := users;
     tp_last_activity_at := igt_last_activity_at thread;
     tp_is_group := derive_is_group thread users;
     tp_is_muted := Py.getattr (igt_muted thread) false;
     tp_has_unread := Py.getattr (igt_has_newer thread) false;
     last_message_text := last_msg_text;
     last_message_type := last_msg_type;
     last_message_timestamp := last_msg_timestamp |}.

End Parsers.

(** ** Exceptions, the process state and the monad of effects *)

(** The exception classes the server distinguishes.  [OtherException] is
    any other class; every class derives from [Exception]. *)
Inductive exn : Type :=
| LoginRequired (msg : string)
| ChallengeRequired (msg : string)
| TwoFactorRequired (msg : string)
| BadPassword (msg : string)
| PleaseWaitFewMinutes (msg : string)
| ValueError (msg : string)
| HTTPException (status_code : Z) (detail : string)
| OtherException (msg : string).

Inductive result (A : Type) : Type :=
| Ok (value : A)
| Raise (e : exn).

Arguments Ok {A} value.
Arguments Raise {A} e.

(** An opaque serialized upstream session. *)
Definition SessionBlob : Type := string.

(** What is done to the instagrapi [Client] object held by the server, in
    order.  [C_new_client] is the construction of a fresh [Client()]. *)
Inductive Call : Type :=
| C_new_client
| C_load_settings (blob : SessionBlob)
| C_dump_settings
| C_get_timeline_feed
| C_account_info
| C_login (username password : string)
| C_direct_threads (amount : Z)
| C_direct_thread (thread_id amount : Z)
| C_direct_answer (thread_id : Z) (text : string)
| C_user_id_from_username (username : string)
| C_direct_send (text : string) (user_ids : list string)
| C_user_info_by_username (username : string).

(** The call that sends a password upstream. *)
Definition is_login_call (c : Call) : bool :=
  match c with
  | C_login _ _ => true
  | _ => false
  end.

(** The process state: the durable files, the log of what was done to the
    client, and the single current identity of [InstagramClient]. *)
Record State : Type := {
  session_file : option SessionBlob;     (* SESSION_FILE; [None]: no file *)
  private_pem : option string;           (* PRIVATE_KEY_PATH *)
  public_pem : option string;            (* PUBLIC_KEY_PATH *)
  client_calls : list Call;
  _logged_in_user : option User
}.

Definition set_session_file (f : option SessionBlob) (st : State) : State :=
  {| session_file := f;
     private_pem := private_pem st;
     public_pem := public_pem st;
     client_calls := client_calls st;
     _logged_in_user := _logged_in_user st |}.

Definition set_keys (priv pub : option string) (st : State) : State :=
  {| session_file := session_file st;
     private_pem := priv;
     public_pem := pub;
     client_calls := client_calls st;
     _logged_in_user := _logged_in_user st |}.

Definition set_client_calls (l : list Call) (st : State) : State :=
  {| session_file := session_file st;
     private_pem := private_pem st;
     public_pem := public_pem st;
     client_calls := l;
     _logged_in_user := _logged_in_user st |}.

Definition set_logged_in_user (u : option User) (st : State) : State :=
  {| session_file := session_file st;
     private_pem := private_pem st;
     public_pem := public_pem st;
     client_calls := client_calls st;
     _logged_in_user := u |}.

(** What lies outside the repository: the upstream capability behind the
    client (each answer may depend on everything done to the client so far),
    the RSA primitives, and the builtin [int].  *)
Record Env : Type := {
  up_load_settings : list Call -> SessionBlob -> result unit;
  up_dump_settings : list Call -> result SessionBlob;
  up_get_timeline_feed : list Call -> result unit;
  up_account_info : list Call -> result IGUser;
  up_login : list Call -> string -> string -> result unit;
  up_direct_threads : list Call -> Z -> result (list IGDirectThread);
  up_direct_thread : list Call -> Z -> Z -> result IGDirectThread;
  up_direct_answer : list Call -> Z -> string -> result IGDirectMessage;
  up_user_id_from_username : list Call -> string -> result string;
  up_direct_send : list Call -> string -> list string -> result IGDirectMessage;
  up_user_info_by_username : list Call -> string -> result IGUser;
  (* key generation and the writing of both PEM files *)
  rsa_generate : result (string * string);
  (* with a private PEM: load the key, base64-decode, OAEP-decrypt, decode UTF-8 *)
  rsa_decrypt : string -> string -> result string;
  (* [int(s)] *)
  builtin_int : string -> result Z
}.

Definition M (A : Type) : Type := State -> result A * State.

Definition ret {A : Type} (a : A) : M A := fun st => (Ok a, st).

Definition raise {A : Type} (e : exn) : M A := fun st => (Raise e, st).

Definition bind {A B : Type} (c : M A) (k : A -> M B) : M B :=
  fun st =>
    match c st with
    | (Ok a, st') => k a st'
    | (Raise e, st') => (Raise e, st')
    end.

(** [try: c  except Exception as e: h e]; a handler that re-raises some
    classes models the narrower [except] clauses. *)
Definition try_except {A : Type} (c : M A) (h : exn -> M A) : M A :=
  fun st =>
    match c st with
    | (Ok a, st') => (Ok a, st')
    | (Raise e, st') => h e st'
    end.

Definition get_state : M State := fun st => (Ok st, st).

Definition modify (f : State -> State) : M unit := fun st => (Ok tt, f st).

(** A pure computation that may raise. *)
Definition lift {A : Type} (r : result A) : M A := fun st => (r, st).

(** One operation on the client: the oracle answers from the log so far,
    and the operation is logged whether it raises or not. *)
Definition client_call {A : Type} (c : Call) (answer : list Call -> result A) : M A :=
  fun st => (answer (client_calls st), set_client_calls (client_calls st ++ [c]) st).

Declare Scope monad_scope.
Delimit Scope monad_scope with monad.
Notation "x <- c ;; k" := (bind c (fun x => k))
  (at level 100, c at next level, right associativity) : monad_scope.
Notation "c ;; k" := (bind c (fun _ => k))
  (at level 100, right associativity) : monad_scope.
Local Open Scope monad_scope.

(** [str(e)]. *)
Definition exn_str (e : exn) : string :=
  match e with
  | LoginRequired m | ChallengeRequired m | TwoFactorRequired m | BadPassword m
  | PleaseWaitFewMinutes m | ValueError m | OtherException m => m
  | HTTPException c d => DecimalString.NilZero.string_of_int (Z.to_int c) ++ ": " ++ d
  end.

(** ** server/instagram/session.py *)

Module Session.
Section WithEnv.
Variable env : Env.

(** [client.dump_settings(SESSION_FILE)]: on success the file holds the
    client's serialized session. *)
Definition dump_settings : M unit :=
  blob <- client_call C_dump_settings (up_dump_settings env) ;;
  modify (set_session_file (Some blob)).

Definition save_session : M unit :=
  try_except dump_settings (fun _ => ret tt).

Definition load_session : M bool :=
  st <- get_state ;;
  match session_file st with
  | None => ret false
  | Some blob =>
      try_except
        (client_call (C_load_settings blob) (fun log => up_load_settings env log blob) ;;
         ret true)
        (fun _ => ret false)
  end.

(** The unlink is taken to succeed.  The source swallows a failing unlink,
    which would leave the file in place; nothing proved in this file
    concludes about the saved session after a deletion. *)
Definition delete_session : M unit :=
  modify (set_session_file None).

End WithEnv.
End Session.

(** ** server/instagram/auth.py *)

Module Auth.
Section WithEnv.
Variable env : Env.

(** The body of the first [try]: the validity probe of a restored session. *)
Definition probe_restored : M User :=
  client_call C_get_timeline_feed (up_get_timeline_feed env) ;;
  user_info <- client_call C_account_info (up_account_info env) ;;
  ret (Parsers.parse_user user_info).

(** The body of the second [try]: the fresh login. *)
Definition fresh_login (username password : string) : M User :=
  client_call (C_login username password)
              (fun log => up_login env log username password) ;;
  user_info <- client_call C_account_info (up_account_info env) ;;
  Session.save_session env ;;
  ret (Parsers.parse_user user_info).

(** The [except] clauses of the fresh login, in source order. *)
Definition classify (e : exn) : bool * option string * option User :=
  match e with
  | BadPassword _ => (false, Some "Invalid password", None)
  | ChallengeRequired _ =>
      (false, Some "Challenge required - please verify your account in the Instagram app", None)
  | TwoFactorRequired _ =>
      (false, Some "Two-factor authentication required - not yet supported", None)
  | PleaseWaitFewMinutes _ =>
      (false, Some "Rate limited - please wait a few minutes and try again", None)
  | _ => (false, Some (exn_str e), None)
  end.

Definition login (username password : string)
  : M (bool * option string * option User) :=
  loaded <- Session.load_session env ;;
  restored <- (if (loaded : bool)
               then try_except (user <- probe_restored ;; ret (Some user))
                               (fun _ => ret None)
               else ret None) ;;
  match restored with
  | Some user => ret (true, None, Some user)
  | None =>
      try_except
        (user <- fresh_login username password ;; ret (true, None, Some user))
        (fun e => ret (classify e))
  end.

End WithEnv.
End Auth.

(** ** server/instagram/messages.py

    The functions take the caller's [logged_in_user]; the client they are
    handed is the one of the state. *)

Module Messages.
Section WithEnv.
Variable env : Env.

Definition get_inbox (logged_in_user : option User) (amount : Z)
  : M (list DirectThreadPreview) :=
  match logged_in_user with
  | None => raise (LoginRequired "Not logged in")
  | Some _ =>
      threads <- client_call (C_direct_threads amount)
                             (fun log => up_direct_threads env log amount) ;;
      ret (map Parsers.parse_thread_preview threads)
  end.

Definition get_thread (logged_in_user : option User) (thread_id : string) (amount : Z)
  : M DirectThread :=
  match logged_in_user with
  | None => raise (LoginRequired "Not logged in")
  | Some user =>
      tid <- lift (builtin_int env thread_id) ;;
      thread <- client_call (C_direct_thread tid amount)
                            (fun log => up_direct_thread env log tid amount) ;;
      ret (Parsers.parse_thread thread (Some (pk user)))
  end.

Definition send_message (logged_in_user : option User) (thread_id text : string)
  : M DirectMessage :=
  match logged_in_user with
  | None => raise (LoginRequired "Not logged in")
  | Some user =>
      tid <- lift (builtin_int env thread_id) ;;
      result <- client_call (C_direct_answer tid text)
                            (fun log => up_direct_answer env log tid text) ;;
      ret (Parsers.parse_message result (Some (pk user)))
  end.

Definition send_message_to_user (logged_in_user : option User) (username text : string)
  : M DirectMessage :=
  match logged_in_user with
  | None => raise (LoginRequired "Not logged in")
  | Some user =>
      user_id <- client_call (C_user_id_from_username username)
                             (fun log => up_user_id_from_username env log username) ;;
      result <- client_call (C_direct_send text [user_id])
                            (fun log => up_direct_send env log text [user_id]) ;;
      ret (Parsers.parse_message result (Some (pk user)))
  end.

Definition search_user (logged_in_user : option User) (username : string)
  : M (option User) :=
  match logged_in_user with
  | None => raise (LoginRequired "Not logged in")
  | Some _ =>
      try_except
        (user_info <- client_call (C_user_info_by_username username)
                                  (fun log => up_user_info_by_username env log username) ;;
         ret (Some (Parsers.parse_user user_info)))
        (fun _ => ret None)
  end.

End WithEnv.
End Messages.

(** ** server/instagram/client.py: class [InstagramClient]

    The object is the state: [self.client] is the call log, and
    [self._logged_in_user] the field of that name. *)

Module InstagramClient.
Section WithEnv.
Variable env : Env.

(** [__init__]: a fresh client and no identity; the durable files are
    whatever the disk holds. *)
Definition init (session : option SessionBlob) (priv pub : option string) : State :=
  {| session_file := session;
     private_pem := priv;
     public_pem := pub;
     client_calls := [];
     _logged_in_user := None |}.

Definition login (username password : string) : M (bool * option string) :=
  r <- Auth.login env username password ;;
  let '(success, error, user) := r in
  (if (success : bool) then modify (set_logged_in_user user) else ret tt) ;;
  ret (success, error).

Definition logout : M unit :=
  Session.delete_session ;;
  modify (fun st => set_client_calls (client_calls st ++ [C_new_client]) st) ;;
  modify (set_logged_in_user None).

Definition is_authenticated : M bool :=
  st <- get_state ;;
  ret (Py.truthy_obj (_logged_in_user st)).

Definition get_current_user : M (option User) :=
  st <- get_state ;;
  ret (_logged_in_user st).

Definition get_inbox (amount : Z) : M (list DirectThreadPreview) :=
  st <- get_state ;;
  Messages.get_inbox env (_logged_in_user st) amount.

Definition get_thread (thread_id : string) (amount : Z) : M DirectThread :=
  st <- get_state ;;
  Messages.get_thread env (_logged_in_user st) thread_id amount.

Definition send_message (thread_id text : string) : M DirectMessage :=
  st <- get_state ;;
  Messages.send_message env (_logged_in_user st) thread_id text.

Definition send_message_to_user (username text : string) : M DirectMessage :=
  st <- get_state ;;
  Messages.send_message_to_user env (_logged_in_user st) username text.

Definition search_user (username : string) : M (option User) :=
  st <- get_state ;;
  Messages.search_user env (_logged_in_user st) username.

End WithEnv.
End InstagramClient.

(** ** server/crypto.py *)

Module Crypto.
Section WithEnv.
Variable env : Env.

Definition ensure_keys_exist : M unit :=
  st <- get_state ;;
  match private_pem st, public_pem st with
  | Some _, Some _ => ret tt
  | _, _ =>
      pair <- lift (rsa_generate env) ;;
      modify (set_keys (Some (fst pair)) (Some (snd pair)))
  end.

Definition get_public_key_pem : M string :=
  ensure_keys_exist ;;
  st <- get_state ;;
  match public_pem st with
  | Some pem => ret pem
  | None => raise (OtherException "FileNotFoundError")
  end.

(** The body of the [try] of [decrypt_password]. *)
Definition decrypt_with_private_key (encrypted_base64 : string) : M string :=
  st <- get_state ;;
  match private_pem st with
  | Some pem => lift (rsa_decrypt env pem encrypted_base64)
  | None => raise (OtherException "FileNotFoundError")
  end.

Definition decrypt_password (encrypted_base64 : string) : M string :=
  ensure_keys_exist ;;
  try_except (decrypt_with_private_key encrypted_base64)
             (fun _ => raise (ValueError "Failed to decrypt password")).

End WithEnv.
End Crypto.

(** ** server/models/api_models.py *)

Record LoginRequest : Type := {
  req_username : string;
  req_password : string;              (* default "" *)
  req_encrypted_password : string     (* default "" *)
}.

Record LoginResponse : Type := {
  login_success : bool;
  login_user : option User;
  login_message : option string
}.

Record SendMessageRequest : Type := { req_text : string }.

Record SendMessageResponse : Type := {
  send_success : bool;
  send_message : option DirectMessage;
  send_error : option string
}.

Record InboxResponse : Type := {
  inbox_success : bool;
  inbox_threads : list DirectThreadPreview;
  inbox_error : option string
}.

Record ThreadResponse : Type := {
  thread_success : bool;
  thread_thread : option DirectThread;
  thread_error : option string
}.

Record HealthResponse : Type := {
  health_status : string;
  health_authenticated : bool;
  health_username : option string
}.

Record PublicKeyResponse : Type := { public_key : string }.

(** ** server/main.py: the endpoints *)

Module Main.
Section WithEnv.
Variable env : Env.

Definition HTTP_400_BAD_REQUEST : Z := 400.
Definition HTTP_401_UNAUTHORIZED : Z := 401.
Definition HTTP_404_NOT_FOUND : Z := 404.
Definition HTTP_500_INTERNAL_SERVER_ERROR : Z := 500.

(** The status code the application answers with: the exception handlers
    registered for [LoginRequired] and [Exception], and the framework's
    own for [HTTPException]. *)
Definition http_status {A : Type} (r : result A) : Z :=
  match r with
  | Ok _ => 200
  | Raise (HTTPException code _) => code
  | Raise (LoginRequired _) => HTTP_401_UNAUTHORIZED
  | Raise _ => HTTP_500_INTERNAL_SERVER_ERROR
  end.

Definition health_check : M HealthResponse :=
  user <- InstagramClient.get_current_user ;;
  authenticated <- InstagramClient.is_authenticated ;;
  ret {| health_status := "ok";
         health_authenticated := authenticated;
         health_username := option_map username user |}.

(** "Determine which password to use". *)
Definition choose_password (request : LoginRequest) : M string :=
  if Py.truthy_str (req_encrypted_password request) then
    try_except
      (Crypto.decrypt_password env (req_encrypted_password request))
      (fun e =>
         match e with
         | ValueError _ =>
             raise (HTTPException HTTP_400_BAD_REQUEST "Failed to decrypt password")
         | _ => raise e
         end)
  else if Py.truthy_str (req_password request) then
    ret (req_password request)
  else
    raise (HTTPException HTTP_400_BAD_REQUEST
             "Either password or encrypted_password is required").

(** What the endpoint answers once [instagram_client.login] has returned. *)
Definition login_response (r : bool * option string) : M LoginResponse :=
  let '(success, error) := r in
  if (success : bool) then
    user <- InstagramClient.get_current_user ;;
    ret {| login_success := true;
           login_user := user;
           login_message := Some "Login successful" |}
  else
    raise (HTTPException HTTP_401_UNAUTHORIZED (Py.or_str error "Login failed")).

Definition login (request : LoginRequest) : M LoginResponse :=
  password <- choose_password request ;;
  r <- InstagramClient.login env (req_username request) password ;;
  login_response r.

Definition logout : M unit :=
  InstagramClient.logout.

(** [except LoginRequired: raise] followed by [except Exception as e]. *)
Definition reraise_login_required {A : Type} (on_error : string -> A) (e : exn) : M A :=
  match e with
  | LoginRequired _ => raise e
  | _ => ret (on_error (exn_str e))
  end.

Definition get_inbox (limit : Z) : M InboxResponse :=
  let limit := Py.min (Py.max limit 1) 100 in
  try_except
    (threads <- InstagramClient.get_inbox env limit ;;
     ret {| inbox_success := true; inbox_threads := threads; inbox_error := None |})
    (reraise_login_required
       (fun msg => {| inbox_success := false; inbox_threads := [];
                      inbox_error := Some msg |})).

Definition get_thread (thread_id : string) (limit : Z) : M ThreadResponse :=
  let limit := Py.min (Py.max limit 1) 100 in
  try_except
    (thread <- InstagramClient.get_thread env thread_id limit ;;
     ret {| thread_success := true; thread_thread := Some thread;
            thread_error := None |})
    (reraise_login_required
       (fun msg => {| thread_success := false; thread_thread := None;
                      thread_error := Some msg |})).

Definition send_message_to_thread (thread_id : string) (request : SendMessageRequest)
  : M SendMessageResponse :=
  try_except
    (message <- InstagramClient.send_message env thread_id (req_text request) ;;
     ret {| send_success := true; send_message := Some message; send_error := None |})
    (reraise_login_required
       (fun msg => {| send_success := false; send_message := None;
                      send_error := Some msg |})).

Definition send_message_to_user (username : string) (request : SendMessageRequest)
  : M SendMessageResponse :=
  let username := Py.lstrip "@"%char username in
  try_except
    (message <- InstagramClient.send_message_to_user env username (req_text request) ;;
     ret {| send_success := true; send_message := Some message; send_error := None |})
    (reraise_login_required
       (fun msg => {| send_success := false; send_message := None;
                      send_error := Some msg |})).

(** The answer is the dict [{"success": True, "user": user}], kept as its
    [user]. *)
Definition search_user (username : string) : M User :=
  let username := Py.lstrip "@"%char username in
  try_except
    (user <- InstagramClient.search_user env username ;;
     match user with
     | Some u => ret u
     | None =>
         raise (HTTPException HTTP_404_NOT_FOUND
                  ("User '" ++ username ++ "' not found"))
     end)
    (fun e =>
       match e with
       | LoginRequired _ => raise e
       | HTTPException _ _ => raise e
       | _ => raise (HTTPException HTTP_500_INTERNAL_SERVER_ERROR (exn_str e))
       end).

Definition get_public_key : M PublicKeyResponse :=
  pem <- Crypto.get_public_key_pem env ;;
  ret {| public_key := pem |}.

(** The startup half of [lifespan]; [ig_username] and [ig_password] are
    [os.getenv("IG_USERNAME")] and [os.getenv("IG_PASSWORD")]. *)
Definition lifespan_startup (ig_username ig_password : option string) : M unit :=
  Crypto.ensure_keys_exist env ;;
  match ig_username, ig_password with
  | Some username, Some password =>
      if Py.truthy_str username && Py.truthy_str password
      then InstagramClient.login env username password ;; ret tt
      else ret tt
  | _, _ => ret tt
  end.

End WithEnv.
End Main.

(** ** The vocabulary of the specification *)

(** The fetch count the specification asks for: [n] clamped into [1,100]. *)
Definition clamped (n : Z) : Z :=
  if n <=? 1 then 1 else if 100 <=? n then 100 else n.

(** The preview labels as the specification lists them. *)
Definition spec_preview_labels : list (string * string) :=
  [ ("media", "Photo"); ("video", "Video"); ("reel_share", "Shared Reel");
    ("story_share", "Shared Story"); ("media_share", "Shared Post");
    ("voice_media", "Voice Message"); ("animated_media", "GIF");
    ("link", "Link"); ("like", "Liked") ].

(** The item-type tags the repository names: ["text"] and the tags that
    have a preview label. *)
Definition recognized_item_types : list string :=
  "text" :: map fst spec_preview_labels.

Definition recognized (tag : string) : bool :=
  existsb (String.eqb tag) recognized_item_types.

(** A handle with one leading ["@"] removed when it has one: the
    normalisation as the specification words it. *)
Definition strip_one_at (handle : string) : string :=
  match handle with
  | String "@"%char rest => rest
  | _ => handle
  end.

(** [starts_with_at h]: the handle begins with ["@"]. *)
Definition starts_with_at (handle : string) : bool :=
  match handle with
  | String "@"%char _ => true
  | _ => false
  end.

(** [n] copies of ["@"]. *)
Fixpoint ats (n : nat) : string :=
  match n with
  | O => ""
  | S k => String "@"%char (ats k)
  end.

(** ** Frames: what a computation may change *)

(** [preserves R c]: running [c] relates the state before to the state
    after by [R], whether [c] returns or raises. *)
Definition preserves {A : Type} (R : State -> State -> Prop) (c : M A) : Prop :=
  forall st, R st (snd (c st)).

(** [returns c]: [c] never raises. *)
Definition returns {A : Type} (c : M A) : Prop :=
  forall st, exists a, fst (c st) = Ok a.

(** What one login attempt may do to the state: it leaves the identity and
    the key files alone, it only adds to the log of the client, and the
    only password it sends upstream is the one it was given. *)
Definition login_step (username password : string) (st st' : State) : Prop :=
  _logged_in_user st' = _logged_in_user st
  /\ private_pem st' = private_pem st
  /\ public_pem st' = public_pem st
  /\ exists added,
       client_calls st' = (client_calls st ++ added)%list
       /\ forall c, In c added -> is_login_call c = true -> c = C_login username password.

(** What decrypting a password may do to the state: it may create the key
    files, and nothing else. *)
Definition keys_step (st st' : State) : Prop :=
  client_calls st' = client_calls st
  /\ _logged_in_user st' = _logged_in_user st
  /\ session_file st' = session_file st.

(** The calls that reach the upstream service on behalf of a DM operation. *)
Definition is_dm_call (c : Call) : bool :=
  match c with
  | C_direct_threads _ | C_direct_thread _ _ | C_direct_answer _ _
  | C_user_id_from_username _ | C_direct_send _ _ | C_user_info_by_username _ => true
  | _ => false
  end.

(** What a DM operation may do to the state: it leaves the identity, the
    saved session and the key files alone, and adds only DM calls to the
    log of the client. *)
Definition dm_step (st st' : State) : Prop :=
  _logged_in_user st' = _logged_in_user st
  /\ session_file st' = session_file st
  /\ private_pem st' = private_pem st
  /\ public_pem st' = public_pem st
  /\ exists added,
       client_calls st' = (client_calls st ++ added)%list
       /\ Forall (fun c => is_dm_call c = true) added.

(** The saved session is kept: the file is as it was and the client was
    not asked to dump its settings. *)
Definition session_kept (st st' : State) : Prop :=
  session_file st' = session_file st
  /\ exists added,
       client_calls st' = (client_calls st ++ added)%list
       /\ ~ In C_dump_settings added.

(** Nothing changed but the key files. *)
Definition only_keys_change (st st' : State) : Prop :=
  session_file st' = session_file st
  /\ client_calls st' = client_calls st
  /\ _logged_in_user st' = _logged_in_user st.

(** ** Sample worlds, for running the model on concrete inputs *)

Module Sample.

Definition alice : IGUser :=
  {| ig_pk := "17841400000000001";
     ig_username := "alice";
     ig_full_name := Some "Alice A";
     ig_profile_pic_url := None;
     ig_is_private := Some false;
     ig_is_verified := None |}.

Definition hello : IGDirectMessage :=
  {| ig_id := "30001";
     ig_user_id := Some "17841400000000001";
     ig_timestamp := Datetime 1700000000000000;
     ig_item_type := Some "text";
     ig_text := Some "hello";
     ig_media := None;
     ig_link := None |}.

Definition poll : IGDirectMessage :=
  {| ig_id := "30002";
     ig_user_id := Some "17841400000000002";
     ig_timestamp := Datetime 1700000000000001;
     ig_item_type := Some "poll";
     ig_text := None;
     ig_media := None;
     ig_link := None |}.

(** A message whose sender identifier is the empty string. *)
Definition anonymous : IGDirectMessage :=
  {| ig_id := "30003";
     ig_user_id := Some "";
     ig_timestamp := Datetime 1700000000000002;
     ig_item_type := Some "text";
     ig_text := Some "hi";
     ig_media := None;
     ig_link := None |}.

Definition chat : IGDirectThread :=
  {| igt_id := "340282366841710300949128000000000001";
     igt_pk := "18000000000000001";
     igt_thread_title := None;
     igt_users := [alice];
     igt_last_activity_at := Some (Datetime 1700000000000005);
     igt_is_group := Some false;
     igt_muted := None;
     igt_has_newer := None;
     igt_messages := Some [hello] |}.

(** A shared reel, with an empty text. *)
Definition reel : IGDirectMessage :=
  {| ig_id := "30004";
     ig_user_id := Some "17841400000000002";
     ig_timestamp := Datetime 1700000000000003;
     ig_item_type := Some "reel_share";
     ig_text := Some "";
     ig_media := None;
     ig_link := None |}.

(** A message without an item-type tag. *)
Definition untagged : IGDirectMessage :=
  {| ig_id := "30005";
     ig_user_id := None;
     ig_timestamp := Datetime 1700000000000004;
     ig_item_type := None;
     ig_text := None;
     ig_media := None;
     ig_link := None |}.

(** A thread without last-activity timestamp whose messages are [msgs]. *)
Definition thread_of (msgs : list IGDirectMessage) : IGDirectThread :=
  {| igt_id := "340282366841710300949128000000000002";
     igt_pk := "18000000000000002";
     igt_thread_title := None;
     igt_users := [alice];
     igt_last_activity_at := None;
     igt_is_group := None;
     igt_muted := None;
     igt_has_newer := None;
     igt_messages := Some msgs |}.

(** A stand-in for [int(s)]: it reads the one thread identifier the
    examples use and rejects any other string the way Python does. *)
Definition int_of (s : string) : result Z :=
  if String.eqb s "42" then Ok 42
  else Raise (ValueError ("invalid literal for int() with base 10: '" ++ s ++ "'")).

(** An upstream that accepts everything. *)
Definition friendly : Env :=
  {| up_load_settings := fun _ _ => Ok tt;
     up_dump_settings := fun _ => Ok "fresh-session";
     up_get_timeline_feed := fun _ => Ok tt;
     up_account_info := fun _ => Ok alice;
     up_login := fun _ _ _ => Ok tt;
     up_direct_threads := fun _ _ => Ok [chat];
     up_direct_thread := fun _ _ _ => Ok chat;
     up_direct_answer := fun _ _ _ => Ok hello;
     up_user_id_from_username := fun _ _ => Ok "17841400000000002";
     up_direct_send := fun _ _ _ => Ok hello;
     up_user_info_by_username := fun _ _ => Ok alice;
     rsa_generate := Ok ("private-pem", "public-pem");
     rsa_decrypt := fun _ c =>
       if String.eqb c "Y2lwaGVy" then Ok "s3cret"
       else Raise (OtherException "Decryption failed");
     builtin_int := int_of |}.

(** An upstream with no usable session that rejects every password. *)
Definition hostile : Env :=
  {| up_load_settings := fun _ _ => Ok tt;
     up_dump_settings := fun _ => Raise (OtherException "disk full");
     up_get_timeline_feed := fun _ => Raise (LoginRequired "login_required");
     up_account_info := fun _ => Raise (LoginRequired "login_required");
     up_login := fun _ _ _ => Raise (BadPassword "bad_password");
     up_direct_threads := fun _ _ => Raise (LoginRequired "login_required");
     up_direct_thread := fun _ _ _ => Raise (LoginRequired "login_required");
     up_direct_answer := fun _ _ _ => Raise (LoginRequired "login_required");
     up_user_id_from_username := fun _ _ => Raise (OtherException "UserNotFound");
     up_direct_send := fun _ _ _ => Raise (LoginRequired "login_required");
     up_user_info_by_username := fun _ _ => Raise (OtherException "UserNotFound");
     rsa_generate := Raise (OtherException "PermissionError");
     rsa_decrypt := fun _ _ => Raise (OtherException "Decryption failed");
     builtin_int := int_of |}.

(** A freshly started server: keys on disk, no saved session. *)
Definition fresh : State :=
  InstagramClient.init None (Some "private-pem") (Some "public-pem").

(** A freshly started server that finds a saved session. *)
Definition with_saved_session : State :=
  InstagramClient.init (Some "saved-session") (Some "private-pem") (Some "public-pem").

(** A server on which alice is logged in. *)
Definition logged_in : State :=
  set_logged_in_user (Some (Parsers.parse_user alice)) with_saved_session.

End Sample.

(** ** More worlds: sessions that expired, disks that fail *)

Module Scenario.

(** The saved session is no longer valid, but the password is accepted. *)
Definition expired : Env :=
  {| up_load_settings := fun _ _ => Ok tt;
     up_dump_settings := fun _ => Ok "renewed-session";
     up_get_timeline_feed := fun _ => Raise (LoginRequired "login_required");
     up_account_info := fun _ => Ok Sample.alice;
     up_login := fun _ _ _ => Ok tt;
     up_direct_threads := fun _ _ => Raise (LoginRequired "login_required");
     up_direct_thread := fun _ _ _ => Raise (OtherException "timeout");
     up_direct_answer := fun _ _ _ => Raise (OtherException "timeout");
     up_user_id_from_username := fun _ _ => Ok "17841400000000002";
     up_direct_send := fun _ _ _ => Raise (OtherException "timeout");
     up_user_info_by_username := fun _ _ => Raise (LoginRequired "login_required");
     rsa_generate := Ok ("new-private-pem", "new-public-pem");
     rsa_decrypt := fun _ _ => Raise (OtherException "Decryption failed");
     builtin_int := Sample.int_of |}.

(** Every upstream call succeeds, but the session cannot be written. *)
Definition read_only_disk : Env :=
  {| up_load_settings := fun _ _ => Ok tt;
     up_dump_settings := fun _ => Raise (OtherException "Read-only file system");
     up_get_timeline_feed := fun _ => Ok tt;
     up_account_info := fun _ => Ok Sample.alice;
     up_login := fun _ _ _ => Ok tt;
     up_direct_threads := fun _ _ => Ok [Sample.chat];
     up_direct_thread := fun _ _ _ => Ok Sample.chat;
     up_direct_answer := fun _ _ _ => Ok Sample.hello;
     up_user_id_from_username := fun _ _ => Ok "17841400000000002";
     up_direct_send := fun _ _ _ => Ok Sample.hello;
     up_user_info_by_username := fun _ _ => Ok Sample.alice;
     rsa_generate := Raise (OtherException "Read-only file system");
     rsa_decrypt := fun _ _ => Raise (OtherException "Decryption failed");
     builtin_int := Sample.int_of |}.

(** A server started on a disk without key files and without a session. *)
Definition empty_disk : State := InstagramClient.init None None None.

(** A disk that lost its public key file only. *)
Definition half_keys : State := InstagramClient.init None (Some "old-private-pem") None.

Definition bob : UserShort :=
  {| us_pk := "17841400000000003"; us_username := "bob"; us_full_name := "";
     us_profile_pic_url := None |}.

Definition carol : UserShort :=
  {| us_pk := "17841400000000004"; us_username := "carol"; us_full_name := "";
     us_profile_pic_url := None |}.

(** A message that carries a link. *)
Definition link_message : IGDirectMessage :=
  {| ig_id := "30006";
     ig_user_id := Some "17841400000000002";
     ig_timestamp := Datetime 1700000000000006;
     ig_item_type := Some "link";
     ig_text := Some "look";
     ig_media := None;
     ig_link := Some {| ig_link_url := Some "https://example.org";
                        ig_link_title := Some "Example" |} |}.

End Scenario.

(** * Properties *)

(** ** Python helpers *)

Lemma truthy_str_true (s : string) : Py.truthy_str s = true <-> s <> "".
Proof.
  destruct s; simpl; split; intro H; try reflexivity; try discriminate.
  now elim H.
Qed.

Lemma truthy_str_false (s : string) : Py.truthy_str s = false <-> s = "".
Proof.
  destruct s; simpl; split; intro H; try reflexivity; discriminate.
Qed.

Lemma or_str_truthy (s d : string) : s <> "" -> Py.or_str (Some s) d = s.
Proof.
  intro H. unfold Py.or_str. now rewrite (proj2 (truthy_str_true s) H).
Qed.

Lemma dict_get_absent (d : list (string * string)) (key default : string) :
  (forall v, ~ In (key, v) d) -> Py.dict_get d key default = default.
Proof.
  induction d as [| [k v] rest IH]; intro Habsent; simpl.
  - reflexivity.
  - destruct (String.eqb k key) eqn:E.
    + apply String.eqb_eq in E. subst k.
      elim (Habsent v). now left.
    + apply IH. intros v' Hin. apply (Habsent v'). now right.
Qed.

Lemma dict_get_present (d : list (string * string)) (key value default : string) :
  NoDup (map fst d) -> In (key, value) d -> Py.dict_get d key default = value.
Proof.
  induction d as [| [k v] rest IH]; intros Hnodup Hin; simpl in *.
  - contradiction.
  - inversion Hnodup as [| ? ? Hfresh Hrest]; subst.
    destruct Hin as [Hhead | Htail].
    + inversion Hhead; subst. now rewrite String.eqb_refl.
    + destruct (String.eqb k key) eqn:E.
      * apply String.eqb_eq in E. subst k.
        elim Hfresh. change key with (fst (key, value)). now apply in_map.
      * now apply IH.
Qed.

Lemma type_previews_keys_distinct : NoDup (map fst Parsers.type_previews).
Proof.
  simpl.
  repeat (constructor; [ simpl; intro H;
                         repeat (destruct H as [H | H]; [ discriminate H | ]);
                         exact H | ]).
  constructor.
Qed.

(** The table of the code is the table of the specification. *)
Lemma type_previews_is_spec_table : Parsers.type_previews = spec_preview_labels.
Proof. reflexivity. Qed.

Lemma lstrip_at_decompose (s : string) :
  exists n, s = (ats n ++ Py.lstrip "@"%char s)%string
            /\ starts_with_at (Py.lstrip "@"%char s) = false.
Proof.
  induction s as [| a rest IH]; simpl.
  - exists O. split; reflexivity.
  - destruct (Ascii.eqb a "@"%char) eqn:E.
    + apply Ascii.eqb_eq in E. subst a.
      destruct IH as [n [Hsplit Hhead]].
      exists (S n). simpl. split; [ now rewrite <- Hsplit | exact Hhead ].
    + exists O. simpl. split; [ reflexivity | ].
      destruct a as [b0 b1 b2 b3 b4 b5 b6 b7].
      destruct b0, b1, b2, b3, b4, b5, b6, b7; try reflexivity; discriminate E.
Qed.

Lemma lstrip_at_fixed (s : string) :
  starts_with_at s = false -> Py.lstrip "@"%char s = s.
Proof.
  destruct s as [| a rest]; simpl; [ reflexivity | ].
  intro H.
  destruct (Ascii.eqb a "@"%char) eqn:E; [ | reflexivity ].
  apply Ascii.eqb_eq in E. subst a. discriminate H.
Qed.

Lemma clamp_is_clamped (n : Z) : Py.min (Py.max n 1) 100 = clamped n.
Proof.
  unfold Py.min, Py.max, clamped.
  destruct (n <? 1) eqn:E1; destruct (n <=? 1) eqn:E2;
    destruct (100 <=? n) eqn:E3;
    repeat match goal with
           | |- context [?a <? ?b] => destruct (Z.ltb_spec a b)
           end;
    try reflexivity;
    try (apply Z.ltb_lt in E1); try (apply Z.ltb_ge in E1);
    try (apply Z.leb_le in E2); try (apply Z.leb_gt in E2);
    try (apply Z.leb_le in E3); try (apply Z.leb_gt in E3); lia.
Qed.

Lemma clamped_range (n : Z) : 1 <= clamped n <= 100.
Proof.
  unfold clamped.
  destruct (Z.leb_spec n 1); [ lia | ].
  destruct (Z.leb_spec 100 n); lia.
Qed.

(** ** Message normalisation *)

(** C4, as the specification words it, fails on the code: the truth test
    that guards the comparison also rejects the empty string, so a viewer
    identifier [""] and a sender identifier [""] are equal as strings and
    yet the flag is false. *)
Lemma viewer_flag_empty_identifier :
  ~ (forall (msg : IGDirectMessage) (viewer : option string),
       is_sent_by_viewer (Parsers.parse_message msg viewer) = true <->
       (exists p, viewer = Some p /\ ig_user_id msg = Some p)).
Proof.
  intro Hclaim.
  destruct (Hclaim Sample.anonymous (Some "")) as [_ Hflag].
  assert (Hfalse : is_sent_by_viewer (Parsers.parse_message Sample.anonymous (Some "")) = true).
  { apply Hflag. exists "". split; reflexivity. }
  discriminate Hfalse.
Qed.

(** C4 (amended): [is_sent_by_viewer] is true exactly when the identifier
    of the current identity is present and not empty and the upstream
    sender identifier is that very string; the comparison is equality of
    strings.  In particular the flag is false when no identity is given. *)
Theorem parse_message_is_sent_by_viewer (msg : IGDirectMessage) (viewer : option string) :
  (is_sent_by_viewer (Parsers.parse_message msg viewer) = true <->
   (exists p, viewer = Some p /\ p <> "" /\ ig_user_id msg = Some p))
  /\ is_sent_by_viewer (Parsers.parse_message msg None) = false.
Proof.
  split; [ | reflexivity ].
  unfold Parsers.parse_message; cbn [is_sent_by_viewer].
  destruct viewer as [v |]; destruct (ig_user_id msg) as [u |];
    cbn [Py.truthy_ostr andb]; rewrite ?andb_false_r;
    try (split; [ discriminate | intros [p [Hv [_ Hu]]]; discriminate ]).
  destruct (Py.truthy_str v) eqn:Ev; destruct (Py.truthy_str u) eqn:Eu; cbn [andb].
  - split.
    + intro H. apply String.eqb_eq in H. subst u.
      exists v. repeat split. now apply truthy_str_true.
    + intros [p [Hv [_ Hu]]]. inversion Hv; inversion Hu; subst.
      apply String.eqb_refl.
  - split; [ discriminate | ].
    intros [p [Hv [_ Hu]]]. inversion Hv; inversion Hu; subst. congruence.
  - split; [ discriminate | ].
    intros [p [Hv [Hne _]]]. inversion Hv; subst.
    apply truthy_str_false in Ev. contradiction.
  - split; [ discriminate | ].
    intros [p [Hv [Hne _]]]. inversion Hv; subst.
    apply truthy_str_false in Ev. contradiction.
Qed.

(** The comparison is not numeric: ["0123"] and ["123"] differ. *)
Example sender_compared_as_string :
  is_sent_by_viewer
    (Parsers.parse_message
       {| ig_id := "1"; ig_user_id := Some "0123"; ig_timestamp := Datetime 0;
          ig_item_type := None; ig_text := None; ig_media := None; ig_link := None |}
       (Some "123")) = false.
Proof. reflexivity. Qed.

(** C5: the media fields are populated exactly when the record carries a
    media reference; then the type is ["video"] when a video URL is present
    and ["photo"] otherwise, and the URL is the video URL, else the
    thumbnail URL, else the empty string, and is never absent. *)
Theorem parse_message_media_fields (msg : IGDirectMessage) (viewer : option string) :
  (media_type (Parsers.parse_message msg viewer) <> None <-> ig_media msg <> None)
  /\ (media_url (Parsers.parse_message msg viewer) <> None <-> ig_media msg <> None)
  /\ match ig_media msg with
     | None =>
         media_type (Parsers.parse_message msg viewer) = None
         /\ media_url (Parsers.parse_message msg viewer) = None
     | Some media =>
         media_type (Parsers.parse_message msg viewer)
         = Some (match ig_video_url media with
                 | Some _ => "video"
                 | None => "photo"
                 end)
         /\ media_url (Parsers.parse_message msg viewer)
            = Some (match ig_video_url media, ig_thumbnail_url media with
                    | Some video, _ => str_url video
                    | None, Some thumbnail => str_url thumbnail
                    | None, None => ""
                    end)
     end.
Proof.
  unfold Parsers.parse_message; simpl.
  destruct (ig_media msg) as [media |]; simpl;
    try (destruct (ig_video_url media); destruct (ig_thumbnail_url media); simpl);
    repeat split; try reflexivity; try discriminate;
    try (intros _; discriminate); intro H; now elim H.
Qed.

(** The example of the specification: only a thumbnail. *)
Example thumbnail_only_is_photo :
  let out :=
    Parsers.parse_message
      {| ig_id := "1"; ig_user_id := None; ig_timestamp := Datetime 0;
         ig_item_type := Some "media"; ig_text := None;
         ig_media := Some {| ig_video_url := None;
                             ig_thumbnail_url := Some (Url "https://cdn/t.jpg") |};
         ig_link := None |} None in
  media_type out = Some "photo" /\ media_url out = Some "https://cdn/t.jpg".
Proof. split; reflexivity. Qed.

(** The example of the specification for titles: no upstream title, the
    participants alice and bob in that order. *)
Example title_joins_handles_in_order :
  Parsers.derive_title
    {| igt_id := "1"; igt_pk := "1"; igt_thread_title := Some "";
       igt_users := []; igt_last_activity_at := None; igt_is_group := None;
       igt_muted := None; igt_has_newer := None; igt_messages := None |}
    [ {| us_pk := "1"; us_username := "alice"; us_full_name := "";
         us_profile_pic_url := None |};
      {| us_pk := "2"; us_username := "bob"; us_full_name := "";
         us_profile_pic_url := None |} ]
  = "alice, bob".
Proof. reflexivity. Qed.

(** C6, as the specification words it, fails on the code: a tag that is
    present and not one of the recognized tags, such as ["poll"], is kept as
    it is, not replaced by ["unknown"]. *)
Lemma unrecognized_item_type_is_kept :
  ~ (forall (msg : IGDirectMessage) (viewer : option string),
       (ig_item_type msg = None
        \/ exists tag, ig_item_type msg = Some tag /\ recognized tag = false) ->
       item_type (Parsers.parse_message msg viewer) = "unknown").
Proof.
  intro Hclaim.
  assert (H : item_type (Parsers.parse_message Sample.poll None) = "unknown").
  { apply Hclaim. right. exists "poll". split; reflexivity. }
  discriminate H.
Qed.

(** C6 (amended): a missing item-type tag ([None] or the empty string)
    normalizes to ["unknown"]; every other tag, recognized or not, is kept
    unchanged. *)
Theorem parse_message_item_type (msg : IGDirectMessage) (viewer : option string) :
  (ig_item_type msg = None \/ ig_item_type msg = Some "" ->
   item_type (Parsers.parse_message msg viewer) = "unknown")
  /\ (forall tag, ig_item_type msg = Some tag -> tag <> "" ->
      item_type (Parsers.parse_message msg viewer) = tag).
Proof.
  unfold Parsers.parse_message; cbn [item_type]. split.
  - intros [H | H]; rewrite H; reflexivity.
  - intros tag H Hne. rewrite H. now apply or_str_truthy.
Qed.

Lemma parse_message_item_type_witness :
  item_type (Parsers.parse_message Sample.poll None) = "poll"
  /\ item_type (Parsers.parse_message Sample.untagged None) = "unknown".
Proof.
  split.
  - apply (proj2 (parse_message_item_type Sample.poll None) "poll").
    + reflexivity.
    + discriminate.
  - apply (proj1 (parse_message_item_type Sample.untagged None)). left. reflexivity.
Defined.

(** ** Preview synthesis *)

(** C7: the preview of a thread.  (3) With no messages at all the preview
    text and type are absent.  With a most recent message: (1) the preview
    timestamp is the thread's last-activity timestamp when present and the
    message's timestamp otherwise; (2) the preview text is the message's
    text when that is present (not [None], not empty), otherwise the label
    the table gives for its item-type, otherwise the item-type in square
    brackets; the item-type is the normalized one (["unknown"] when the
    tag is missing). *)
Theorem parse_thread_preview_synthesis (thread : IGDirectThread) :
  (igt_messages thread = None \/ igt_messages thread = Some [] ->
   last_message_text (Parsers.parse_thread_preview thread) = None
   /\ last_message_type (Parsers.parse_thread_preview thread) = None
   /\ last_message_timestamp (Parsers.parse_thread_preview thread)
      = igt_last_activity_at thread)
  /\ (forall last rest,
        igt_messages thread = Some (last :: rest) ->
        let tag := Py.or_str (ig_item_type last) "unknown" in
        last_message_timestamp (Parsers.parse_thread_preview thread)
        = Some (match igt_last_activity_at thread with
                | Some activity => activity
                | None => ig_timestamp last
                end)
        /\ last_message_type (Parsers.parse_thread_preview thread) = Some tag
        /\ (forall t, ig_text last = Some t -> t <> "" ->
            last_message_text (Parsers.parse_thread_preview thread) = Some t)
        /\ (ig_text last = None \/ ig_text last = Some "" ->
            (forall label, In (tag, label) spec_preview_labels ->
             last_message_text (Parsers.parse_thread_preview thread) = Some label)
            /\ ((forall label, ~ In (tag, label) spec_preview_labels) ->
                last_message_text (Parsers.parse_thread_preview thread)
                = Some ("[" ++ tag ++ "]")%string))).
Proof.
  unfold Parsers.parse_thread_preview, Parsers.messages_or_empty.
  cbn [last_message_text last_message_type last_message_timestamp].
  split.
  - intros [H | H]; rewrite H; cbn [hd_error];
      destruct (igt_last_activity_at thread); repeat split.
  - intros last rest H. rewrite H. cbn [hd_error].
    split; [ destruct (igt_last_activity_at thread); reflexivity | ].
    split; [ reflexivity | ].
    split.
    + intros t Ht Hne. rewrite Ht. cbn [Py.truthy_ostr].
      now rewrite (proj2 (truthy_str_true t) Hne).
    + intros Habsent.
      assert (Hfalse : Py.truthy_ostr (ig_text last) = false)
        by (destruct Habsent as [E | E]; rewrite E; reflexivity).
      rewrite Hfalse. split.
      * intros label Hin. f_equal.
        apply dict_get_present;
          [ exact type_previews_keys_distinct
          | now rewrite type_previews_is_spec_table ].
      * intros Hnone. f_equal.
        apply dict_get_absent. now rewrite type_previews_is_spec_table.
Qed.

(** The examples of the specification: a reel share without text, and a
    type the table does not list. *)
Lemma parse_thread_preview_synthesis_witness :
  last_message_text (Parsers.parse_thread_preview (Sample.thread_of [Sample.reel]))
  = Some "Shared Reel"
  /\ last_message_text (Parsers.parse_thread_preview (Sample.thread_of [Sample.poll]))
     = Some "[poll]"
  /\ last_message_timestamp (Parsers.parse_thread_preview (Sample.thread_of [Sample.poll]))
     = Some (Datetime 1700000000000001)
  /\ last_message_type (Parsers.parse_thread_preview (Sample.thread_of [])) = None.
Proof.
  pose proof (proj2 (parse_thread_preview_synthesis (Sample.thread_of [Sample.reel]))
                Sample.reel [] eq_refl) as [_ [_ [_ Hreel]]].
  pose proof (proj2 (parse_thread_preview_synthesis (Sample.thread_of [Sample.poll]))
                Sample.poll [] eq_refl) as [Htime [_ [_ Hpoll]]].
  pose proof (proj1 (parse_thread_preview_synthesis (Sample.thread_of []))
                (or_intror eq_refl)) as [_ [Hnone _]].
  split; [ | split; [ | split ] ].
  - apply (proj1 (Hreel (or_intror eq_refl)) "Shared Reel").
    simpl. tauto.
  - apply (proj2 (Hpoll (or_introl eq_refl))).
    intros label Hin. simpl in Hin.
    repeat (destruct Hin as [Hin | Hin]; [ discriminate Hin | ]).
    exact Hin.
  - exact Htime.
  - exact Hnone.
Defined.

(** ** The monad: what a computation preserves, and whether it returns *)

Ltac unfold_monad :=
  unfold bind, try_except, ret, raise, get_state, modify, lift, client_call in *.

Section Preservation.
Variable R : State -> State -> Prop.
Hypothesis R_refl : forall st, R st st.
Hypothesis R_trans : forall s1 s2 s3, R s1 s2 -> R s2 s3 -> R s1 s3.

Lemma preserves_ret {A : Type} (a : A) : preserves R (ret a).
Proof. intro st. apply R_refl. Qed.

Lemma preserves_raise {A : Type} (e : exn) : preserves R (@raise A e).
Proof. intro st. apply R_refl. Qed.

Lemma preserves_lift {A : Type} (r : result A) : preserves R (lift r).
Proof. intro st. apply R_refl. Qed.

Lemma preserves_get_state : preserves R get_state.
Proof. intro st. apply R_refl. Qed.

Lemma preserves_bind {A B : Type} (c : M A) (k : A -> M B) :
  preserves R c -> (forall a, preserves R (k a)) -> preserves R (bind c k).
Proof.
  intros Hc Hk st. unfold bind.
  specialize (Hc st). destruct (c st) as [[a | e] st1]; cbn [snd] in *.
  - apply R_trans with st1; [ exact Hc | apply Hk ].
  - exact Hc.
Qed.

Lemma preserves_try_except {A : Type} (c : M A) (h : exn -> M A) :
  preserves R c -> (forall e, preserves R (h e)) -> preserves R (try_except c h).
Proof.
  intros Hc Hh st. unfold try_except.
  specialize (Hc st). destruct (c st) as [[a | e] st1]; cbn [snd] in *.
  - exact Hc.
  - apply R_trans with st1; [ exact Hc | apply Hh ].
Qed.

(** A computation that reads the state first. *)
Lemma preserves_read {A : Type} (k : State -> M A) :
  (forall s, preserves R (k s)) -> preserves R (bind get_state k).
Proof. intros Hk. apply preserves_bind; [ apply preserves_get_state | exact Hk ]. Qed.
End Preservation.

Lemma returns_ret {A : Type} (a : A) : returns (ret a).
Proof. intro st. now exists a. Qed.

Lemma returns_bind {A B : Type} (c : M A) (k : A -> M B) :
  returns c -> (forall a, returns (k a)) -> returns (bind c k).
Proof.
  intros Hc Hk st. unfold bind.
  destruct (Hc st) as [a Ha]. destruct (c st) as [[a' | e] st1]; cbn [fst] in *.
  - apply Hk.
  - discriminate Ha.
Qed.

Lemma returns_try_except {A : Type} (c : M A) (h : exn -> M A) :
  (forall e, returns (h e)) -> returns (try_except c h).
Proof.
  intros Hh st. unfold try_except.
  destruct (c st) as [[a | e] st1]; cbn [fst].
  - now exists a.
  - apply Hh.
Qed.

Lemma bind_ok_inv {A B : Type} (c : M A) (k : A -> M B) (st st' : State) (b : B) :
  bind c k st = (Ok b, st') ->
  exists a s1, c st = (Ok a, s1) /\ k a s1 = (Ok b, st').
Proof.
  unfold bind. destruct (c st) as [[a | e] s1]; intro H.
  - now exists a, s1.
  - discriminate H.
Qed.

Lemma try_except_ok_inv {A : Type} (c : M A) (h : exn -> M A) (st st' : State) (a : A) :
  try_except c h st = (Ok a, st') ->
  c st = (Ok a, st') \/ exists e s1, c st = (Raise e, s1) /\ h e s1 = (Ok a, st').
Proof.
  unfold try_except. destruct (c st) as [[a' | e] s1]; intro H.
  - now left.
  - right. now exists e, s1.
Qed.

Lemma returns_modify (f : State -> State) : returns (modify f).
Proof. intro st. now exists tt. Qed.

Lemma returns_get_state : returns get_state.
Proof. intro st. now exists st. Qed.

(** ** The authentication state machine *)

Lemma login_step_refl (username password : string) (st : State) :
  login_step username password st st.
Proof.
  repeat split. exists []. split; [ now rewrite app_nil_r | intros c [] ].
Qed.

Lemma login_step_trans (username password : string) (s1 s2 s3 : State) :
  login_step username password s1 s2 -> login_step username password s2 s3 ->
  login_step username password s1 s3.
Proof.
  intros (Hu1 & Hp1 & Hq1 & a1 & Ha1 & Hl1) (Hu2 & Hp2 & Hq2 & a2 & Ha2 & Hl2).
  repeat split; try congruence.
  exists (a1 ++ a2)%list. split.
  - rewrite Ha2, Ha1. now rewrite app_assoc.
  - intros c Hin Hc. apply in_app_or in Hin. destruct Hin; auto.
Qed.

(** A call on the client is a login step unless it sends another password. *)
Lemma login_step_client_call {A : Type} (username password : string)
      (c : Call) (answer : list Call -> result A) :
  (is_login_call c = true -> c = C_login username password) ->
  preserves (login_step username password) (client_call c answer).
Proof.
  intros Hc st. unfold client_call; cbn [snd].
  repeat split. exists [c]. split; [ reflexivity | ].
  intros c' [<- | []]. exact Hc.
Qed.

Lemma login_step_set_session_file (username password : string) (f : option SessionBlob) :
  preserves (login_step username password) (modify (set_session_file f)).
Proof.
  intro st. unfold modify; cbn [snd].
  repeat split. exists []. split; [ cbn; now rewrite app_nil_r | intros c [] ].
Qed.

Create HintDb frame.
#[local] Hint Resolve login_step_refl login_step_trans : frame.
#[local] Hint Resolve returns_ret returns_bind returns_try_except returns_modify
  returns_get_state : frame.

Ltac frame_step u p :=
  first
    [ apply (preserves_bind _ (login_step_trans u p))
    | apply (preserves_try_except _ (login_step_trans u p))
    | apply (preserves_ret _ (login_step_refl u p))
    | apply (preserves_raise _ (login_step_refl u p))
    | apply (preserves_get_state _ (login_step_refl u p))
    | apply login_step_set_session_file
    | apply login_step_client_call;
      let Hcall := fresh "Hcall" in
      intro Hcall; first [ reflexivity | discriminate Hcall ] ].

Lemma load_session_login_step (env : Env) (username password : string) :
  preserves (login_step username password) (Session.load_session env).
Proof.
  unfold Session.load_session.
  apply (preserves_read _ (login_step_refl username password) (login_step_trans username password)).
  intro s. destruct (session_file s); repeat (frame_step username password; intros).
Qed.

Lemma save_session_login_step (env : Env) (username password : string) :
  preserves (login_step username password) (Session.save_session env).
Proof.
  unfold Session.save_session, Session.dump_settings.
  repeat (frame_step username password; intros).
Qed.

(** [auth.login] is a login step. *)
Lemma auth_login_step (env : Env) (username password : string) :
  preserves (login_step username password) (Auth.login env username password).
Proof.
  unfold Auth.login, Auth.probe_restored, Auth.fresh_login.
  frame_step username password; [ apply load_session_login_step | intros loaded ].
  frame_step username password.
  - destruct loaded; repeat (frame_step username password; intros).
  - intros [user |]; repeat (frame_step username password; intros).
    all: try apply save_session_login_step.
Qed.

(** [auth.login] never raises: every exception is caught and classified. *)
Lemma auth_login_returns (env : Env) (username password : string) :
  returns (Auth.login env username password).
Proof.
  unfold Auth.login.
  apply returns_bind.
  - unfold Session.load_session. apply returns_bind; [ apply returns_get_state | ].
    intro s. destruct (session_file s); auto with frame.
  - intro loaded. apply returns_bind.
    + destruct loaded; auto with frame.
    + intros [user |]; auto with frame.
Qed.

(** A failed attempt reports no user. *)
Lemma auth_login_failure_has_no_user (env : Env) (username password : string)
      (st st' : State) (error : option string) (user : option User) :
  Auth.login env username password st = (Ok (false, error, user), st') -> user = None.
Proof.
  unfold Auth.login. intro H.
  apply bind_ok_inv in H. destruct H as (loaded & s1 & _ & H).
  apply bind_ok_inv in H. destruct H as (restored & s2 & _ & H).
  destruct restored as [restored_user |].
  - unfold ret in H. inversion H.
  - apply try_except_ok_inv in H. destruct H as [H | (e & s3 & _ & H)].
    + apply bind_ok_inv in H. destruct H as (fresh_user & s3 & _ & H).
      unfold ret in H. inversion H.
    + unfold ret, Auth.classify in H. destruct e; inversion H; reflexivity.
Qed.

(** [InstagramClient.login] never raises. *)
Lemma client_login_returns (env : Env) (username password : string) :
  returns (InstagramClient.login env username password).
Proof.
  unfold InstagramClient.login.
  apply returns_bind; [ apply auth_login_returns | ].
  intros [[success error] user]. apply returns_bind; [ | auto with frame ].
  destruct success; auto with frame.
Qed.

(** C10: a login attempt that returns failure leaves the current identity
    exactly as it was, be it absent or the identity of an earlier login. *)
Theorem failed_login_keeps_identity
        (env : Env) (username password : string) (st st' : State)
        (error : option string) :
  InstagramClient.login env username password st = (Ok (false, error), st') ->
  _logged_in_user st' = _logged_in_user st.
Proof.
  unfold InstagramClient.login. intro H.
  apply bind_ok_inv in H. destruct H as ([[success err] user] & s1 & Hauth & H).
  pose proof (auth_login_step env username password st) as Hstep.
  rewrite Hauth in Hstep. cbn [snd] in Hstep. destruct Hstep as (Hidentity & _).
  apply bind_ok_inv in H. destruct H as ([] & s2 & Hset & H).
  unfold ret in H. inversion H; subst.
  unfold ret in Hset. inversion Hset; subst. exact Hidentity.
Qed.

Lemma failed_login_keeps_identity_witness :
  _logged_in_user
    (snd (InstagramClient.login Sample.hostile "alice" "wrong" Sample.logged_in))
  = Some (Parsers.parse_user Sample.alice)
  /\ _logged_in_user
       (snd (InstagramClient.login Sample.hostile "alice" "wrong" Sample.fresh))
     = None.
Proof.
  split.
  - apply (failed_login_keeps_identity Sample.hostile "alice" "wrong" Sample.logged_in
             _ (Some "Invalid password")).
    reflexivity.
  - apply (failed_login_keeps_identity Sample.hostile "alice" "wrong" Sample.fresh
             _ (Some "Invalid password")).
    reflexivity.
Defined.

(** What [parse_user] makes of an upstream account record, field by
    field: identifier and handle as they are, the display name or the empty
    string, the avatar URL as text when there is one, and the two flags,
    false when the record does not carry them. *)
Lemma parse_user_fields (user : IGUser) :
  pk (Parsers.parse_user user) = ig_pk user
  /\ username (Parsers.parse_user user) = ig_username user
  /\ full_name (Parsers.parse_user user)
     = match ig_full_name user with
       | Some name => name
       | None => ""
       end
  /\ profile_pic_url (Parsers.parse_user user)
     = match ig_profile_pic_url user with
       | Some (Url address) => Some address
       | None => None
       end
  /\ is_private (Parsers.parse_user user)
     = match ig_is_private user with
       | Some flag => flag
       | None => false
       end
  /\ is_verified (Parsers.parse_user user)
     = match ig_is_verified user with
       | Some flag => flag
       | None => false
       end.
Proof.
  unfold Parsers.parse_user.
  cbn [pk username full_name profile_pic_url is_private is_verified].
  split; [ reflexivity | ].
  split; [ reflexivity | ].
  split; [ destruct (ig_full_name user) as [[| a name] |]; reflexivity | ].
  split; [ destruct (ig_profile_pic_url user) as [[address] |]; reflexivity | ].
  split; [ destruct (ig_is_private user); reflexivity | ].
  destruct (ig_is_verified user); reflexivity.
Qed.

(** C3: when a saved session exists, is restored, and the validity probe
    (the timeline read and the account read) succeeds, login succeeds and
    the identity it installs is derived from the answer of the probe: its
    identifier and handle are those of the account answered, its display
    name, avatar and flags are the ones of that account (the empty string,
    none and false where the account has none).  The client is asked for
    nothing but the restore and the probe, so no password goes upstream and
    the session is not saved again: the stored blob is the one found. *)
Theorem restored_session_login
        (env : Env) (login_username password : string) (st : State)
        (blob : SessionBlob) (info : IGUser) :
  session_file st = Some blob ->
  up_load_settings env (client_calls st) blob = Ok tt ->
  up_get_timeline_feed env (client_calls st ++ [C_load_settings blob]) = Ok tt ->
  up_account_info env (client_calls st ++ [C_load_settings blob; C_get_timeline_feed])
  = Ok info ->
  Auth.login env login_username password st
  = (Ok (true, None, Some (Parsers.parse_user info)),
     set_client_calls
       (client_calls st ++ [C_load_settings blob; C_get_timeline_feed; C_account_info])
       st)
  /\ fst (InstagramClient.login env login_username password st) = Ok (true, None)
  /\ _logged_in_user (snd (InstagramClient.login env login_username password st))
     = Some (Parsers.parse_user info)
  /\ (exists identity,
         _logged_in_user (snd (InstagramClient.login env login_username password st))
         = Some identity
         /\ pk identity = ig_pk info
         /\ username identity = ig_username info
         /\ full_name identity
            = match ig_full_name info with
              | Some name => name
              | None => ""
              end
         /\ profile_pic_url identity
            = match ig_profile_pic_url info with
              | Some (Url address) => Some address
              | None => None
              end
         /\ is_private identity
            = match ig_is_private info with
              | Some flag => flag
              | None => false
              end
         /\ is_verified identity
            = match ig_is_verified info with
              | Some flag => flag
              | None => false
              end)
  /\ session_file (snd (InstagramClient.login env login_username password st)) = Some blob
  /\ client_calls (snd (InstagramClient.login env login_username password st))
     = (client_calls st
        ++ [C_load_settings blob; C_get_timeline_feed; C_account_info])%list
  /\ Forall (fun c => is_login_call c = false /\ c <> C_dump_settings)
            [C_load_settings blob; C_get_timeline_feed; C_account_info].
Proof.
  intros Hfile Hload Hfeed Hinfo.
  assert (Hauth :
            Auth.login env login_username password st
            = (Ok (true, None, Some (Parsers.parse_user info)),
               set_client_calls
                 (client_calls st
                  ++ [C_load_settings blob; C_get_timeline_feed; C_account_info])
                 st)).
  { unfold Auth.login, Auth.probe_restored, Session.load_session.
    cbv beta iota delta [bind try_except ret raise get_state modify lift client_call].
    rewrite Hfile. cbv beta iota. rewrite Hload. cbv beta iota.
    cbn [client_calls set_client_calls].
    rewrite Hfeed. cbv beta iota. cbn [client_calls set_client_calls].
    rewrite <- app_assoc. cbn [app]. rewrite Hinfo. cbv beta iota.
    cbn [client_calls set_client_calls].
    rewrite <- app_assoc. cbn [app]. reflexivity. }
  split; [ exact Hauth | ].
  assert (Hclient :
            InstagramClient.login env login_username password st
            = (Ok (true, None),
               set_logged_in_user
                 (Some (Parsers.parse_user info))
                 (set_client_calls
                    (client_calls st
                     ++ [C_load_settings blob; C_get_timeline_feed; C_account_info])
                    st))).
  { unfold InstagramClient.login. unfold bind at 1. rewrite Hauth. reflexivity. }
  rewrite Hclient.
  cbn [fst snd _logged_in_user session_file client_calls
       set_logged_in_user set_client_calls].
  split; [ reflexivity | ].
  split; [ reflexivity | ].
  split; [ exists (Parsers.parse_user info);
           split; [ reflexivity | exact (parse_user_fields info) ] | ].
  split; [ exact Hfile | ].
  split; [ reflexivity | ].
  repeat constructor; discriminate.
Qed.

Lemma restored_session_login_witness :
  InstagramClient.login Sample.friendly "alice" "" Sample.with_saved_session
  = (Ok (true, None),
     {| session_file := Some "saved-session";
        private_pem := Some "private-pem";
        public_pem := Some "public-pem";
        client_calls := [C_load_settings "saved-session"; C_get_timeline_feed;
                         C_account_info];
        _logged_in_user := Some (Parsers.parse_user Sample.alice) |})
  /\ session_file
       (snd (InstagramClient.login Sample.friendly "alice" "" Sample.with_saved_session))
     = Some "saved-session"
  /\ _logged_in_user
       (snd (InstagramClient.login Sample.friendly "alice" "" Sample.with_saved_session))
     = Some {| pk := "17841400000000001";
               username := "alice";
               full_name := "Alice A";
               profile_pic_url := None;
               is_private := false;
               is_verified := false |}.
Proof.
  pose proof (restored_session_login Sample.friendly "alice" "" Sample.with_saved_session
                "saved-session" Sample.alice eq_refl eq_refl eq_refl eq_refl)
    as (_ & _ & _ & (identity & Hidentity & Hpk & Hname & Hfull & Hpic & Hprivate
                     & Hverified) & Hsession & _).
  split; [ reflexivity | ].
  split; [ exact Hsession | ].
  rewrite Hidentity. destruct identity as [p u f a v w].
  cbn [pk username full_name profile_pic_url is_private is_verified] in *.
  cbn in Hpk, Hname, Hfull, Hpic, Hprivate, Hverified.
  subst. reflexivity.
Defined.

(** ** The DM operations *)

(** C1: with no current identity, every DM operation raises
    [LoginRequired] and leaves the state, and with it the log of the
    client, untouched: no upstream capability is called.  The endpoints
    pass the exception on, and the application answers 401. *)
Theorem dm_operations_require_identity (env : Env) (st : State) :
  _logged_in_user st = None ->
  (forall amount,
      InstagramClient.get_inbox env amount st
      = (Raise (LoginRequired "Not logged in"), st))
  /\ (forall thread_id amount,
         InstagramClient.get_thread env thread_id amount st
         = (Raise (LoginRequired "Not logged in"), st))
  /\ (forall thread_id text,
         InstagramClient.send_message env thread_id text st
         = (Raise (LoginRequired "Not logged in"), st))
  /\ (forall username text,
         InstagramClient.send_message_to_user env username text st
         = (Raise (LoginRequired "Not logged in"), st))
  /\ (forall username,
         InstagramClient.search_user env username st
         = (Raise (LoginRequired "Not logged in"), st))
  /\ (forall limit,
         Main.get_inbox env limit st = (Raise (LoginRequired "Not logged in"), st))
  /\ (forall thread_id limit,
         Main.get_thread env thread_id limit st
         = (Raise (LoginRequired "Not logged in"), st))
  /\ (forall thread_id request,
         Main.send_message_to_thread env thread_id request st
         = (Raise (LoginRequired "Not logged in"), st))
  /\ (forall username request,
         Main.send_message_to_user env username request st
         = (Raise (LoginRequired "Not logged in"), st))
  /\ (forall username,
         Main.search_user env username st
         = (Raise (LoginRequired "Not logged in"), st)).
Proof.
  intro Hnone.
  unfold Main.get_inbox, Main.get_thread, Main.send_message_to_thread,
    Main.send_message_to_user, Main.search_user, Main.reraise_login_required,
    InstagramClient.get_inbox, InstagramClient.get_thread,
    InstagramClient.send_message, InstagramClient.send_message_to_user,
    InstagramClient.search_user,
    Messages.get_inbox, Messages.get_thread, Messages.send_message,
    Messages.send_message_to_user, Messages.search_user.
  cbv beta iota delta [bind try_except ret raise get_state].
  rewrite Hnone.
  repeat split; intros; reflexivity.
Qed.

Lemma dm_operations_require_identity_witness :
  Main.get_inbox Sample.friendly 20 Sample.fresh
  = (Raise (LoginRequired "Not logged in"), Sample.fresh)
  /\ Main.http_status (fst (Main.get_inbox Sample.friendly 20 Sample.fresh)) = 401
  /\ client_calls
       (snd (InstagramClient.send_message_to_user Sample.friendly "alice" "hi" Sample.fresh))
     = [].
Proof.
  pose proof (dm_operations_require_identity Sample.friendly Sample.fresh eq_refl)
    as (_ & _ & _ & Hsend & _ & Hinbox & _).
  split; [ apply Hinbox | ].
  split; [ rewrite Hinbox; reflexivity | ].
  rewrite Hsend. reflexivity.
Defined.

(** C8: on an authenticated server the count handed to the inbox fetch and
    to the thread fetch is the requested one clamped into [1,100]: 1 for a
    request of at most 1, 100 for a request of at least 100, the request
    itself in between. *)
Theorem fetch_count_is_clamped (env : Env) (st : State) (user : User) (limit : Z) :
  _logged_in_user st = Some user ->
  client_calls (snd (Main.get_inbox env limit st))
  = (client_calls st ++ [C_direct_threads (clamped limit)])%list
  /\ (forall thread_id tid,
         builtin_int env thread_id = Ok tid ->
         client_calls (snd (Main.get_thread env thread_id limit st))
         = (client_calls st ++ [C_direct_thread tid (clamped limit)])%list)
  /\ 1 <= clamped limit <= 100
  /\ (limit <= 1 -> clamped limit = 1)
  /\ (100 <= limit -> clamped limit = 100)
  /\ (1 <= limit <= 100 -> clamped limit = limit).
Proof.
  intro Huser. split; [ | split ].
  - unfold Main.get_inbox, InstagramClient.get_inbox, Messages.get_inbox,
      Main.reraise_login_required.
    cbv beta iota zeta delta [bind try_except ret raise get_state client_call].
    rewrite Huser, clamp_is_clamped.
    destruct (up_direct_threads env (client_calls st) (clamped limit)) as [threads | e];
      [ reflexivity | destruct e; reflexivity ].
  - intros thread_id tid Hint.
    unfold Main.get_thread, InstagramClient.get_thread, Messages.get_thread,
      Main.reraise_login_required.
    cbv beta iota zeta delta [bind try_except ret raise get_state client_call lift].
    rewrite Huser, Hint, clamp_is_clamped.
    destruct (up_direct_thread env (client_calls st) tid (clamped limit)) as [thread | e];
      [ reflexivity | destruct e; reflexivity ].
  - pose proof (clamped_range limit). unfold clamped.
    destruct (Z.leb_spec limit 1); destruct (Z.leb_spec 100 limit);
      repeat split; intros; lia.
Qed.

Lemma fetch_count_is_clamped_witness :
  client_calls (snd (Main.get_inbox Sample.friendly 0 Sample.logged_in))
  = [C_direct_threads 1]
  /\ client_calls (snd (Main.get_inbox Sample.friendly 500 Sample.logged_in))
     = [C_direct_threads 100]
  /\ client_calls (snd (Main.get_thread Sample.friendly "42" 37 Sample.logged_in))
     = [C_direct_thread 42 37].
Proof.
  pose proof (fetch_count_is_clamped Sample.friendly Sample.logged_in
                (Parsers.parse_user Sample.alice) 0 eq_refl) as (Hzero & _).
  pose proof (fetch_count_is_clamped Sample.friendly Sample.logged_in
                (Parsers.parse_user Sample.alice) 500 eq_refl) as (Hbig & _).
  pose proof (fetch_count_is_clamped Sample.friendly Sample.logged_in
                (Parsers.parse_user Sample.alice) 37 eq_refl) as (_ & Hthread & _).
  split; [ exact Hzero | ].
  split; [ exact Hbig | ].
  exact (Hthread "42" 42 eq_refl).
Defined.

(** C9, as the specification words it, fails on the code: [lstrip] removes
    every leading ["@"], not one, so for the handle ["@@alice"] the lookup
    is made with ["alice"] and not with ["@alice"]. *)
Lemma doubled_at_is_stripped_twice :
  ~ (forall (env : Env) (st : State) (user : User) (handle : string)
            (request : SendMessageRequest),
       _logged_in_user st = Some user ->
       (exists rest,
           client_calls (snd (Main.send_message_to_user env handle request st))
           = (client_calls st
              ++ C_user_id_from_username (strip_one_at handle) :: rest)%list)
       /\ client_calls (snd (Main.search_user env handle st))
          = (client_calls st ++ [C_user_info_by_username (strip_one_at handle)])%list).
Proof.
  intro Hclaim.
  destruct (Hclaim Sample.friendly Sample.logged_in (Parsers.parse_user Sample.alice)
              "@@alice" {| req_text := "hi" |} eq_refl) as [_ Hsearch].
  discriminate Hsearch.
Qed.

(** C9 (amended): on an authenticated server the handle used for the
    upstream lookup, by send-to-user and by user search alike, is the given
    handle with all its leading ["@"] removed: the given handle is some
    number of ["@"] followed by the handle used, which does not begin with
    ["@"]; a handle without a leading ["@"] is used unchanged. *)
Theorem lookup_handle_is_lstripped
        (env : Env) (st : State) (user : User) (handle : string)
        (request : SendMessageRequest) :
  _logged_in_user st = Some user ->
  (exists rest,
      client_calls (snd (Main.send_message_to_user env handle request st))
      = (client_calls st
         ++ C_user_id_from_username (Py.lstrip "@"%char handle) :: rest)%list)
  /\ client_calls (snd (Main.search_user env handle st))
     = (client_calls st ++ [C_user_info_by_username (Py.lstrip "@"%char handle)])%list
  /\ (exists n, handle = (ats n ++ Py.lstrip "@"%char handle)%string)
  /\ starts_with_at (Py.lstrip "@"%char handle) = false
  /\ (starts_with_at handle = false -> Py.lstrip "@"%char handle = handle).
Proof.
  intro Huser. split; [ | split; [ | split; [ | split ] ] ].
  - unfold Main.send_message_to_user, InstagramClient.send_message_to_user,
      Messages.send_message_to_user, Main.reraise_login_required.
    cbv beta iota zeta delta [bind try_except ret raise get_state client_call].
    rewrite Huser.
    destruct (up_user_id_from_username env (client_calls st) (Py.lstrip "@"%char handle))
      as [target | e].
    + cbn [client_calls set_client_calls].
      match goal with
      | |- context [up_direct_send ?e ?l ?t ?ids] =>
          destruct (up_direct_send e l t ids) as [sent | e']
      end;
        [ | destruct e' ];
        (eexists; cbn [snd client_calls set_client_calls];
         rewrite <- app_assoc; reflexivity).
    + exists []. destruct e; reflexivity.
  - unfold Main.search_user, InstagramClient.search_user, Messages.search_user.
    cbv beta iota zeta delta [bind try_except ret raise get_state client_call].
    rewrite Huser.
    destruct (up_user_info_by_username env (client_calls st) (Py.lstrip "@"%char handle));
      reflexivity.
  - destruct (lstrip_at_decompose handle) as [n [Hsplit _]]. now exists n.
  - destruct (lstrip_at_decompose handle) as [n [_ Hhead]]. exact Hhead.
  - apply lstrip_at_fixed.
Qed.

Lemma lookup_handle_is_lstripped_witness :
  client_calls
    (snd (Main.search_user Sample.friendly "@alice" Sample.logged_in))
  = client_calls
      (snd (Main.search_user Sample.friendly "alice" Sample.logged_in))
  /\ client_calls
       (snd (Main.search_user Sample.friendly "@@alice" Sample.logged_in))
     = [C_user_info_by_username "alice"].
Proof.
  pose proof (lookup_handle_is_lstripped Sample.friendly Sample.logged_in
                (Parsers.parse_user Sample.alice) "@alice" {| req_text := "hi" |}
                eq_refl) as (_ & Hat & _).
  pose proof (lookup_handle_is_lstripped Sample.friendly Sample.logged_in
                (Parsers.parse_user Sample.alice) "alice" {| req_text := "hi" |}
                eq_refl) as (_ & Hplain & _).
  pose proof (lookup_handle_is_lstripped Sample.friendly Sample.logged_in
                (Parsers.parse_user Sample.alice) "@@alice" {| req_text := "hi" |}
                eq_refl) as (_ & Htwice & _).
  split.
  - rewrite Hat, Hplain. reflexivity.
  - exact Htwice.
Defined.

(** ** The login endpoint *)

Lemma keys_step_refl (st : State) : keys_step st st.
Proof. repeat split. Qed.

Lemma keys_step_trans (s1 s2 s3 : State) :
  keys_step s1 s2 -> keys_step s2 s3 -> keys_step s1 s3.
Proof. intros (? & ? & ?) (? & ? & ?). repeat split; congruence. Qed.

Lemma ensure_keys_exist_keys_step (env : Env) :
  preserves keys_step (Crypto.ensure_keys_exist env).
Proof.
  unfold Crypto.ensure_keys_exist.
  apply (preserves_read _ keys_step_refl keys_step_trans). intro s.
  assert (Hgenerate :
            preserves keys_step
              (bind (lift (rsa_generate env))
                    (fun pair => modify (set_keys (Some (fst pair)) (Some (snd pair)))))).
  { apply (preserves_bind _ keys_step_trans).
    - apply (preserves_lift _ keys_step_refl).
    - intros pair st. repeat split. }
  destruct (private_pem s); destruct (public_pem s);
    first [ apply (preserves_ret _ keys_step_refl) | exact Hgenerate ].
Qed.

Lemma decrypt_password_keys_step (env : Env) (encrypted_base64 : string) :
  preserves keys_step (Crypto.decrypt_password env encrypted_base64).
Proof.
  unfold Crypto.decrypt_password, Crypto.decrypt_with_private_key.
  apply (preserves_bind _ keys_step_trans); [ apply ensure_keys_exist_keys_step | ].
  intros _. apply (preserves_try_except _ keys_step_trans).
  - apply (preserves_read _ keys_step_refl keys_step_trans). intro s.
    destruct (private_pem s);
      [ apply (preserves_lift _ keys_step_refl) | apply (preserves_raise _ keys_step_refl) ].
  - intro e. apply (preserves_raise _ keys_step_refl).
Qed.

(** With the key files on disk, whatever goes wrong in the decryption is
    reported as the one [ValueError], and the state is left as it was. *)
Lemma decrypt_password_failure (env : Env) (encrypted_base64 : string) (st st' : State)
      (e : exn) :
  private_pem st <> None -> public_pem st <> None ->
  Crypto.decrypt_password env encrypted_base64 st = (Raise e, st') ->
  e = ValueError "Failed to decrypt password" /\ st' = st.
Proof.
  intros Hpriv Hpub.
  unfold Crypto.decrypt_password, Crypto.ensure_keys_exist,
    Crypto.decrypt_with_private_key.
  cbv beta iota zeta delta [bind try_except ret raise get_state lift modify].
  destruct (private_pem st) as [pem |] eqn:Epriv; [ | now elim Hpriv ].
  destruct (public_pem st) as [pub |]; [ | now elim Hpub ].
  cbv beta iota. rewrite Epriv.
  destruct (rsa_decrypt env pem encrypted_base64); intro H; inversion H; now split.
Qed.

Lemma client_login_calls (env : Env) (username password : string) (st : State) :
  client_calls (snd (InstagramClient.login env username password st))
  = client_calls (snd (Auth.login env username password st)).
Proof.
  unfold InstagramClient.login. unfold bind at 1.
  destruct (Auth.login env username password st) as [[[[success error] user] | e] s1];
    [ | reflexivity ].
  destruct success; reflexivity.
Qed.

Lemma login_response_state (r : bool * option string) (st : State) :
  snd (Main.login_response r st) = st.
Proof.
  destruct r as [success error]. destruct success; reflexivity.
Qed.

(** C2: a login request whose encrypted-password field is not empty.  The
    plaintext password of the request plays no part.  When the payload
    decrypts to [p], the login goes on with [p]: the endpoint is
    [instagram_client.login] run with [p], and any password the client
    sends upstream is [p].  When decrypting raises, the endpoint raises, no
    login is attempted (the log of the client, the identity and the saved
    session are as before); a [ValueError], which with the key files on
    disk is the only thing decrypting raises, becomes the HTTP error 400. *)
Theorem login_prefers_encrypted_password
        (env : Env) (st : State) (request : LoginRequest) :
  req_encrypted_password request <> "" ->
  (forall plain,
      Main.login env
        {| req_username := req_username request;
           req_password := plain;
           req_encrypted_password := req_encrypted_password request |} st
      = Main.login env request st)
  /\ (forall p st1,
         Crypto.decrypt_password env (req_encrypted_password request) st = (Ok p, st1) ->
         Main.login env request st
         = bind (InstagramClient.login env (req_username request) p)
                Main.login_response st1
         /\ exists added,
             client_calls (snd (Main.login env request st))
             = (client_calls st ++ added)%list
             /\ forall c, In c added -> is_login_call c = true ->
                          c = C_login (req_username request) p)
  /\ (forall e st1,
         Crypto.decrypt_password env (req_encrypted_password request) st = (Raise e, st1) ->
         Main.login env request st
         = (Raise (match e with
                   | ValueError _ => HTTPException 400 "Failed to decrypt password"
                   | _ => e
                   end), st1)
         /\ client_calls st1 = client_calls st
         /\ _logged_in_user st1 = _logged_in_user st
         /\ session_file st1 = session_file st)
  /\ (private_pem st <> None -> public_pem st <> None ->
      forall e st1,
        Crypto.decrypt_password env (req_encrypted_password request) st = (Raise e, st1) ->
        Main.login env request st
        = (Raise (HTTPException 400 "Failed to decrypt password"), st)).
Proof.
  intro Hnonempty. apply truthy_str_true in Hnonempty.
  assert (Hok : forall p st1,
             Crypto.decrypt_password env (req_encrypted_password request) st = (Ok p, st1) ->
             Main.login env request st
             = bind (InstagramClient.login env (req_username request) p)
                    Main.login_response st1).
  { intros p st1 Hdecrypt.
    unfold Main.login, Main.choose_password. rewrite Hnonempty.
    unfold bind at 1. unfold try_except. rewrite Hdecrypt. reflexivity. }
  assert (Hraise : forall e st1,
             Crypto.decrypt_password env (req_encrypted_password request) st = (Raise e, st1) ->
             Main.login env request st
             = (Raise (match e with
                       | ValueError _ => HTTPException 400 "Failed to decrypt password"
                       | _ => e
                       end), st1)).
  { intros e st1 Hdecrypt.
    unfold Main.login, Main.choose_password. rewrite Hnonempty.
    unfold bind at 1. unfold try_except. rewrite Hdecrypt.
    destruct e; reflexivity. }
  split; [ | split; [ | split ] ].
  - intro plain. unfold Main.login, Main.choose_password.
    cbn [req_username req_password req_encrypted_password].
    rewrite Hnonempty. reflexivity.
  - intros p st1 Hdecrypt. split; [ now apply Hok | ].
    rewrite (Hok p st1 Hdecrypt).
    pose proof (decrypt_password_keys_step env (req_encrypted_password request) st)
      as Hkeys.
    rewrite Hdecrypt in Hkeys. destruct Hkeys as (Hcalls & _).
    cbn [snd] in Hcalls.
    pose proof (auth_login_step env (req_username request) p st1)
      as (_ & _ & _ & added & Hadded & Honly).
    exists added. split; [ | exact Honly ].
    unfold bind at 1.
    pose proof (client_login_calls env (req_username request) p st1) as Hclient.
    destruct (InstagramClient.login env (req_username request) p st1) as [[r | e] s2];
      cbn [snd] in *.
    + rewrite login_response_state. congruence.
    + congruence.
  - intros e st1 Hdecrypt. split; [ now apply Hraise | ].
    pose proof (decrypt_password_keys_step env (req_encrypted_password request) st)
      as Hkeys.
    rewrite Hdecrypt in Hkeys. exact Hkeys.
  - intros Hpriv Hpub e st1 Hdecrypt.
    destruct (decrypt_password_failure env _ st st1 e Hpriv Hpub Hdecrypt) as [-> ->].
    now rewrite (Hraise _ _ Hdecrypt).
Qed.

Lemma login_prefers_encrypted_password_witness :
  Main.login Sample.friendly
    {| req_username := "alice"; req_password := "plain";
       req_encrypted_password := "garbage" |} Sample.fresh
  = (Raise (HTTPException 400 "Failed to decrypt password"), Sample.fresh)
  /\ Main.login Sample.friendly
       {| req_username := "alice"; req_password := "plain";
          req_encrypted_password := "Y2lwaGVy" |} Sample.fresh
     = Main.login Sample.friendly
         {| req_username := "alice"; req_password := "";
            req_encrypted_password := "Y2lwaGVy" |} Sample.fresh
  /\ client_calls
       (snd (Main.login Sample.friendly
               {| req_username := "alice"; req_password := "plain";
                  req_encrypted_password := "Y2lwaGVy" |} Sample.fresh))
     = [C_login "alice" "s3cret"; C_account_info; C_dump_settings].
Proof.
  assert (Hgarbage : "garbage" <> "") by discriminate.
  assert (Hcipher : "Y2lwaGVy" <> "") by discriminate.
  pose proof (login_prefers_encrypted_password Sample.friendly Sample.fresh
                {| req_username := "alice"; req_password := "plain";
                   req_encrypted_password := "garbage" |} Hgarbage)
    as (_ & _ & _ & Hbad).
  pose proof (login_prefers_encrypted_password Sample.friendly Sample.fresh
                {| req_username := "alice"; req_password := "";
                   req_encrypted_password := "Y2lwaGVy" |} Hcipher)
    as (Hplain & _).
  split; [ | split ].
  - apply (Hbad ltac:(discriminate) ltac:(discriminate)
             (ValueError "Failed to decrypt password") Sample.fresh).
    reflexivity.
  - apply (Hplain "plain").
  - reflexivity.
Defined.

(** * Further properties of the code *)

(** ** More on the monad *)

Lemma bind_raise_inv {A B : Type} (c : M A) (k : A -> M B) (st st' : State) (e : exn) :
  bind c k st = (Raise e, st') ->
  c st = (Raise e, st') \/ exists a s1, c st = (Ok a, s1) /\ k a s1 = (Raise e, st').
Proof.
  unfold bind. destruct (c st) as [[a | e0] s1]; intro H.
  - right. now exists a, s1.
  - left. inversion H. reflexivity.
Qed.

Lemma try_except_raise_inv {A : Type} (c : M A) (h : exn -> M A) (st st' : State)
      (e : exn) :
  try_except c h st = (Raise e, st') ->
  exists e0 s1, c st = (Raise e0, s1) /\ h e0 s1 = (Raise e, st').
Proof.
  unfold try_except. destruct (c st) as [[a | e0] s1]; intro H.
  - discriminate H.
  - now exists e0, s1.
Qed.

Lemma returns_not_raise {A : Type} (c : M A) (st st' : State) (e : exn) :
  returns c -> c st <> (Raise e, st').
Proof.
  intros Hc H. destruct (Hc st) as [a Ha]. rewrite H in Ha. discriminate Ha.
Qed.

(** ** More on normalisation *)

Lemma append_empty (a b : string) : (a ++ b)%string = "" -> a = "" /\ b = "".
Proof.
  destruct a; simpl; intro H; [ now split | discriminate H ].
Qed.

Lemma join_comma_empty (parts : list string) :
  Py.join ", " parts = "" <-> parts = [] \/ parts = [""].
Proof.
  destruct parts as [| a [| b rest]]; simpl.
  - split; [ now left | reflexivity ].
  - split.
    + intros ->. now right.
    + intros [H | H]; [ discriminate H | now inversion H ].
  - split.
    + intro H. apply append_empty in H. destruct H as [_ H]. discriminate H.
    + intros [H | H]; discriminate H.
Qed.

(** X1: the title of a thread, in the list view and in the detail view
    alike.  A non-empty upstream title is used as it is; otherwise the title
    is the participants' handles joined with a comma and a space, in upstream
    order.  The derived title is empty only when there is no participant, or
    a single one whose handle is empty.  Without an upstream group flag a
    thread is a group exactly when it has at least two participants. *)
Theorem thread_title_and_group_flag (thread : IGDirectThread) (viewer : option string) :
  tp_thread_title (Parsers.parse_thread_preview thread)
  = dt_thread_title (Parsers.parse_thread thread viewer)
  /\ (forall title, igt_thread_title thread = Some title -> title <> "" ->
      dt_thread_title (Parsers.parse_thread thread viewer) = title)
  /\ (igt_thread_title thread = None \/ igt_thread_title thread = Some "" ->
      dt_thread_title (Parsers.parse_thread thread viewer)
      = Py.join ", " (map ig_username (igt_users thread))
      /\ (dt_thread_title (Parsers.parse_thread thread viewer) = ""
          <-> igt_users thread = []
              \/ exists u, igt_users thread = [u] /\ ig_username u = ""))
  /\ (forall flag, igt_is_group thread = Some flag ->
      dt_is_group (Parsers.parse_thread thread viewer) = flag)
  /\ (igt_is_group thread = None ->
      (dt_is_group (Parsers.parse_thread thread viewer) = true
       <-> (2 <= length (igt_users thread))%nat)).
Proof.
  unfold Parsers.parse_thread, Parsers.parse_thread_preview, Parsers.derive_title,
    Parsers.derive_is_group.
  cbn [tp_thread_title dt_thread_title dt_is_group].
  rewrite !map_map. cbn [Parsers.parse_user_short us_username].
  split; [ reflexivity | ].
  split.
  { intros title Htitle Hne. rewrite Htitle, (or_str_truthy title "" Hne).
    now rewrite (proj2 (truthy_str_true title) Hne). }
  split.
  { intro Hmissing.
    assert (Hdefault : Py.or_str (igt_thread_title thread) "" = "")
      by (destruct Hmissing as [E | E]; rewrite E; reflexivity).
    rewrite Hdefault. cbn [Py.truthy_str negb andb].
    split.
    - destruct (igt_users thread); reflexivity.
    - destruct (igt_users thread) as [| u [| u' rest]];
        cbn [map Py.truthy_list Py.join].
      + split; intros _; [ now left | reflexivity ].
      + split.
        * intro H. right. exists u. now split.
        * intros [H | [u0 [H Hu0]]]; [ discriminate H | ].
          inversion H; subst. exact Hu0.
      + split.
        * intro H. apply append_empty in H. destruct H as [_ H]. discriminate H.
        * intros [H | [u0 [H _]]]; discriminate H. }
  split.
  { intros flag Hflag. now rewrite Hflag. }
  intro Hnone. rewrite Hnone, length_map.
  rewrite Z.ltb_lt. lia.
Qed.

Lemma thread_title_and_group_flag_witness :
  dt_thread_title (Parsers.parse_thread (Sample.thread_of [Sample.hello]) None) = "alice"
  /\ dt_is_group (Parsers.parse_thread Sample.chat None) = false.
Proof.
  pose proof (thread_title_and_group_flag (Sample.thread_of [Sample.hello]) None)
    as (_ & _ & Hjoin & _).
  pose proof (thread_title_and_group_flag Sample.chat None) as (_ & _ & _ & Hflag & _).
  split.
  - exact (proj1 (Hjoin (or_introl eq_refl))).
  - exact (Hflag false eq_refl).
Defined.

(** X2: the list view and the detail view of one thread agree: the same
    identifiers, participants, last-activity timestamp and flags; the
    detail view has one message per upstream message, in upstream order;
    and the type shown in the preview is the item type of the first message
    of the detail view, the preview text being that message's text whenever
    it has a non-empty one. *)
Theorem preview_agrees_with_thread (thread : IGDirectThread) (viewer : option string) :
  tp_id (Parsers.parse_thread_preview thread) = dt_id (Parsers.parse_thread thread viewer)
  /\ tp_pk (Parsers.parse_thread_preview thread) = dt_pk (Parsers.parse_thread thread viewer)
  /\ tp_users (Parsers.parse_thread_preview thread)
     = dt_users (Parsers.parse_thread thread viewer)
  /\ tp_last_activity_at (Parsers.parse_thread_preview thread)
     = dt_last_activity_at (Parsers.parse_thread thread viewer)
  /\ tp_is_group (Parsers.parse_thread_preview thread)
     = dt_is_group (Parsers.parse_thread thread viewer)
  /\ tp_is_muted (Parsers.parse_thread_preview thread)
     = dt_is_muted (Parsers.parse_thread thread viewer)
  /\ tp_has_unread (Parsers.parse_thread_preview thread)
     = dt_has_unread (Parsers.parse_thread thread viewer)
  /\ (forall i m,
         nth_error (Parsers.messages_or_empty thread) i = Some m ->
         nth_error (dt_messages (Parsers.parse_thread thread viewer)) i
         = Some (Parsers.parse_message m viewer))
  /\ length (dt_messages (Parsers.parse_thread thread viewer))
     = length (Parsers.messages_or_empty thread)
  /\ last_message_type (Parsers.parse_thread_preview thread)
     = option_map item_type (hd_error (dt_messages (Parsers.parse_thread thread viewer)))
  /\ (forall first,
         hd_error (dt_messages (Parsers.parse_thread thread viewer)) = Some first ->
         Py.truthy_ostr (text first) = true ->
         last_message_text (Parsers.parse_thread_preview thread) = text first).
Proof.
  unfold Parsers.parse_thread, Parsers.parse_thread_preview.
  cbn [tp_id tp_pk tp_users tp_last_activity_at tp_is_group tp_is_muted tp_has_unread
       dt_id dt_pk dt_users dt_last_activity_at dt_is_group dt_is_muted dt_has_unread
       dt_messages last_message_type last_message_text].
  repeat (split; [ reflexivity | ]).
  split; [ | split; [ | split ] ].
  - intros i m Hnth.
    exact (map_nth_error (fun m0 => Parsers.parse_message m0 viewer) i _ Hnth).
  - apply length_map.
  - destruct (Parsers.messages_or_empty thread); reflexivity.
  - intros first Hfirst Htext.
    destruct (Parsers.messages_or_empty thread) as [| m rest]; cbn [map hd_error] in *;
      [ discriminate Hfirst | ].
    inversion Hfirst; subst first. cbn [Parsers.parse_message text] in *.
    now rewrite Htext.
Qed.

Lemma preview_agrees_with_thread_witness :
  last_message_text (Parsers.parse_thread_preview Sample.chat) = Some "hello"
  /\ nth_error (dt_messages (Parsers.parse_thread Sample.chat None)) 0
     = Some (Parsers.parse_message Sample.hello None).
Proof.
  pose proof (preview_agrees_with_thread Sample.chat None)
    as (_ & _ & _ & _ & _ & _ & _ & Hnth & _ & _ & Htext).
  split.
  - exact (Htext (Parsers.parse_message Sample.hello None) eq_refl eq_refl).
  - exact (Hnth 0%nat Sample.hello eq_refl).
Defined.

(** X3: the other fields of a normalized message.  The link fields are
    populated only for a message whose item type is exactly ["link"], and
    then they are the ones of its link attachment; the sender identifier of
    the result is never the empty string, an empty or missing upstream
    sender giving none; identifier, timestamp and text are handed on
    unchanged, whoever the viewer is. *)
Theorem parse_message_other_fields (msg : IGDirectMessage) (viewer : option string) :
  (link_url (Parsers.parse_message msg viewer) <> None
   \/ link_title (Parsers.parse_message msg viewer) <> None ->
   ig_item_type msg = Some "link"
   /\ item_type (Parsers.parse_message msg viewer) = "link")
  /\ (forall link, ig_item_type msg = Some "link" -> ig_link msg = Some link ->
      link_url (Parsers.parse_message msg viewer) = ig_link_url link
      /\ link_title (Parsers.parse_message msg viewer) = ig_link_title link)
  /\ user_id (Parsers.parse_message msg viewer) <> Some ""
  /\ (user_id (Parsers.parse_message msg viewer) = None
      <-> ig_user_id msg = None \/ ig_user_id msg = Some "")
  /\ (forall sender, ig_user_id msg = Some sender -> sender <> "" ->
      user_id (Parsers.parse_message msg viewer) = Some sender)
  /\ id (Parsers.parse_message msg viewer) = ig_id msg
  /\ timestamp (Parsers.parse_message msg viewer) = ig_timestamp msg
  /\ text (Parsers.parse_message msg viewer) = ig_text msg.
Proof.
  unfold Parsers.parse_message.
  cbn [link_url link_title item_type user_id id timestamp text].
  split; [ | split; [ | split; [ | split; [ | split ] ] ] ].
  - destruct (ig_item_type msg) as [tag |]; destruct (ig_link msg) as [link |];
      try (intros [H | H]; now elim H).
    destruct (String.eqb tag "link") eqn:E;
      [ | intros [H | H]; now elim H ].
    apply String.eqb_eq in E. subst tag. intros _. split; reflexivity.
  - intros link Htag Hlink. rewrite Htag, Hlink. split; reflexivity.
  - destruct (ig_user_id msg) as [[| a sender] |]; cbn; discriminate.
  - destruct (ig_user_id msg) as [[| a sender] |]; cbn; split;
      try (intros _; tauto); try discriminate;
      intros [H | H]; discriminate H.
  - intros sender Hsender Hne. rewrite Hsender. cbn [Py.truthy_ostr].
    now rewrite (proj2 (truthy_str_true sender) Hne).
  - repeat split.
Qed.

Lemma parse_message_other_fields_witness :
  link_url (Parsers.parse_message Scenario.link_message None) = Some "https://example.org"
  /\ user_id (Parsers.parse_message Sample.anonymous None) = None.
Proof.
  pose proof (parse_message_other_fields Scenario.link_message None)
    as (_ & Hlink & _).
  pose proof (parse_message_other_fields Sample.anonymous None)
    as (_ & _ & _ & Hnone & _).
  split.
  - exact (proj1 (Hlink _ eq_refl eq_refl)).
  - exact (proj2 Hnone (or_intror eq_refl)).
Defined.

(** ** More on the session store and the login *)

(** Running a login symbolically: unfold the code, then split on each
    answer of the client in the order the code asks for it. *)
Ltac unfold_login :=
  unfold InstagramClient.login, Auth.login, Auth.probe_restored, Auth.fresh_login,
    Auth.classify, Session.load_session, Session.save_session, Session.dump_settings;
  cbv beta iota zeta delta [bind try_except ret raise get_state modify lift client_call].

Ltac simpl_state :=
  cbn [client_calls session_file private_pem public_pem _logged_in_user
       set_client_calls set_session_file set_logged_in_user set_keys fst snd].

Ltac split_on_client :=
  repeat (simpl_state;
          match goal with
          | |- context [up_load_settings ?e ?l ?b] =>
              destruct (up_load_settings e l b) as [[] | ?] eqn:?
          | |- context [up_get_timeline_feed ?e ?l] =>
              destruct (up_get_timeline_feed e l) as [[] | ?] eqn:?
          | |- context [up_login ?e ?l ?u ?p] =>
              destruct (up_login e l u p) as [[] | ?] eqn:?
          | |- context [up_account_info ?e ?l] =>
              destruct (up_account_info e l) as [? | ?] eqn:?
          | |- context [up_dump_settings ?e ?l] =>
              destruct (up_dump_settings e l) as [? | ?] eqn:?
          | |- context [match ?x with
                        | LoginRequired _ => _ | ChallengeRequired _ => _
                        | TwoFactorRequired _ => _ | BadPassword _ => _
                        | PleaseWaitFewMinutes _ => _ | ValueError _ => _
                        | HTTPException _ _ => _ | OtherException _ => _
                        end] => is_var x; destruct x
          end);
  simpl_state.

(** X4: what [save_session] writes is what [load_session] hands back to
    the client.  When the client dumps its settings, [save_session] makes
    that blob the saved session, and a following [load_session] loads
    exactly it, answering whether the client accepted it. *)
Theorem save_then_load_session (env : Env) (st : State) (blob : SessionBlob) :
  up_dump_settings env (client_calls st) = Ok blob ->
  Session.save_session env st
  = (Ok tt, set_session_file (Some blob)
              (set_client_calls (client_calls st ++ [C_dump_settings]) st))
  /\ client_calls
       (snd (Session.load_session env (snd (Session.save_session env st))))
     = (client_calls st ++ [C_dump_settings; C_load_settings blob])%list
  /\ fst (Session.load_session env (snd (Session.save_session env st)))
     = Ok (match up_load_settings env (client_calls st ++ [C_dump_settings]) blob with
           | Ok _ => true
           | Raise _ => false
           end).
Proof.
  intros Hdump.
  assert (Hsave :
            Session.save_session env st
            = (Ok tt, set_session_file (Some blob)
                        (set_client_calls (client_calls st ++ [C_dump_settings]) st))).
  { unfold Session.save_session, Session.dump_settings.
    cbv beta iota zeta delta [bind try_except ret modify client_call].
    now rewrite Hdump. }
  split; [ exact Hsave | ].
  rewrite Hsave. unfold Session.load_session.
  cbv beta iota zeta delta [bind try_except ret get_state client_call].
  simpl_state.
  destruct (up_load_settings env (client_calls st ++ [C_dump_settings]) blob);
    simpl_state; rewrite <- app_assoc; split; reflexivity.
Qed.

Lemma save_then_load_session_witness :
  session_file (snd (Session.save_session Sample.friendly Sample.fresh))
  = Some "fresh-session"
  /\ Session.load_session Sample.friendly
       (snd (Session.save_session Sample.friendly Sample.fresh))
     = (Ok true,
        set_client_calls [C_dump_settings; C_load_settings "fresh-session"]
          (set_session_file (Some "fresh-session") Sample.fresh)).
Proof.
  pose proof (save_then_load_session Sample.friendly Sample.fresh "fresh-session" eq_refl)
    as (Hsave & _).
  split.
  - rewrite Hsave. reflexivity.
  - reflexivity.
Defined.

(** X5: saving and loading the session never raise, whatever the client
    does: a failure of the dump or of the load is swallowed, and a failed
    load answers false.  With no saved session, [load_session] answers
    false without asking anything of the client. *)
Theorem session_store_never_raises (env : Env) (st : State) :
  fst (Session.save_session env st) = Ok tt
  /\ (exists loaded, fst (Session.load_session env st) = Ok loaded)
  /\ (forall blob e,
         session_file st = Some blob ->
         up_load_settings env (client_calls st) blob = Raise e ->
         fst (Session.load_session env st) = Ok false)
  /\ (session_file st = None -> Session.load_session env st = (Ok false, st)).
Proof.
  split; [ | split; [ | split ] ].
  - unfold Session.save_session, Session.dump_settings.
    cbv beta iota zeta delta [bind try_except ret modify client_call].
    destruct (up_dump_settings env (client_calls st)); reflexivity.
  - unfold Session.load_session.
    cbv beta iota zeta delta [bind try_except ret get_state client_call].
    destruct (session_file st) as [blob |]; [ | now exists false ].
    destruct (up_load_settings env (client_calls st) blob); eexists; reflexivity.
  - intros blob e Hfile Hload. unfold Session.load_session.
    cbv beta iota zeta delta [bind try_except ret get_state client_call].
    now rewrite Hfile, Hload.
  - intro Hnone. unfold Session.load_session.
    cbv beta iota zeta delta [bind try_except ret get_state client_call].
    now rewrite Hnone.
Qed.

Lemma session_store_never_raises_witness :
  Session.load_session Sample.friendly Sample.fresh = (Ok false, Sample.fresh)
  /\ fst (Session.save_session Scenario.read_only_disk Sample.with_saved_session) = Ok tt.
Proof.
  pose proof (session_store_never_raises Sample.friendly Sample.fresh)
    as (_ & _ & _ & Hnone).
  pose proof (session_store_never_raises Scenario.read_only_disk Sample.with_saved_session)
    as (Hsave & _).
  split; [ exact (Hnone eq_refl) | exact Hsave ].
Defined.

(** X6: a fresh login.  With no saved session, when the upstream accepts
    the password and answers the account read, login succeeds and installs
    the identity parsed from that answer, after asking the client to dump
    its settings: when the dump succeeds the saved session is the dumped
    blob, and when it fails the login succeeds all the same. *)
Theorem fresh_login_saves_session
        (env : Env) (username password : string) (st : State) (info : IGUser) :
  session_file st = None ->
  up_login env (client_calls st) username password = Ok tt ->
  up_account_info env (client_calls st ++ [C_login username password]) = Ok info ->
  fst (InstagramClient.login env username password st) = Ok (true, None)
  /\ _logged_in_user (snd (InstagramClient.login env username password st))
     = Some (Parsers.parse_user info)
  /\ client_calls (snd (InstagramClient.login env username password st))
     = (client_calls st ++ [C_login username password; C_account_info; C_dump_settings])%list
  /\ (forall blob,
         up_dump_settings env
           (client_calls st ++ [C_login username password; C_account_info]) = Ok blob ->
         session_file (snd (InstagramClient.login env username password st)) = Some blob).
Proof.
  intros Hnone Hlogin Hinfo.
  unfold_login. rewrite Hnone. simpl_state. rewrite Hlogin. simpl_state.
  rewrite Hinfo. simpl_state. rewrite <- !app_assoc. cbn [app].
  destruct (up_dump_settings env
              (client_calls st ++ [C_login username password; C_account_info]));
    simpl_state; rewrite <- ?app_assoc; cbn [app];
    repeat (split; [ reflexivity | ]);
    intros blob Hdump; inversion Hdump; reflexivity.
Qed.

Lemma fresh_login_saves_session_witness :
  session_file (snd (InstagramClient.login Sample.friendly "alice" "pw" Sample.fresh))
  = Some "fresh-session"
  /\ fst (InstagramClient.login Scenario.read_only_disk "alice" "pw" Sample.fresh)
     = Ok (true, None).
Proof.
  pose proof (fresh_login_saves_session Sample.friendly "alice" "pw" Sample.fresh
                Sample.alice eq_refl eq_refl eq_refl) as (_ & _ & _ & Hfile).
  pose proof (fresh_login_saves_session Scenario.read_only_disk "alice" "pw" Sample.fresh
                Sample.alice eq_refl eq_refl eq_refl) as (Hok & _).
  split; [ exact (Hfile "fresh-session" eq_refl) | exact Hok ].
Defined.


(** X8: a login attempt that returns failure does not touch the saved
    session: the session file is as it was before the attempt and the
    client was never asked to dump its settings. *)
Theorem failed_login_keeps_saved_session
        (env : Env) (username password : string) (st : State) :
  (exists error, fst (InstagramClient.login env username password st) = Ok (false, error)) ->
  session_kept st (snd (InstagramClient.login env username password st)).
Proof.
  intros [error Hfailed]. revert Hfailed. unfold session_kept. unfold_login.
  destruct (session_file st) as [blob |] eqn:Hfile; split_on_client;
    intro Hfailed; try discriminate Hfailed;
    rewrite <- ?app_assoc; cbn [app];
    (split; [ first [ exact Hfile | reflexivity ] | ]);
    eexists; (split; [ reflexivity | ]);
    cbn [In]; intro Hin;
    repeat (destruct Hin as [Hin | Hin]; [ discriminate Hin | ]);
    exact Hin.
Qed.

Lemma failed_login_keeps_saved_session_witness :
  session_file
    (snd (InstagramClient.login Sample.hostile "alice" "wrong" Sample.with_saved_session))
  = Some "saved-session".
Proof.
  apply (failed_login_keeps_saved_session Sample.hostile "alice" "wrong"
           Sample.with_saved_session).
  exists (Some "Invalid password"). reflexivity.
Defined.

(** X9: login never raises, and its answer has one of two shapes: success
    without an error message, the current identity being installed; or
    failure with an error message. *)
Theorem login_answer_shape (env : Env) (username password : string) (st : State) :
  (fst (InstagramClient.login env username password st) = Ok (true, None)
   /\ exists user,
       _logged_in_user (snd (InstagramClient.login env username password st)) = Some user)
  \/ (exists message,
         fst (InstagramClient.login env username password st) = Ok (false, Some message)).
Proof.
  unfold_login.
  destruct (session_file st) as [blob |] eqn:Hfile; split_on_client;
    first [ solve [ left; split; [ reflexivity | eexists; reflexivity ] ]
          | solve [ right; eexists; reflexivity ] ].
Qed.

(** X10: how a rejected fresh login is reported.  With no saved session,
    when the upstream login raises, nothing else is asked of the client and
    login fails with a fixed message for a bad password, a challenge, a
    two-factor request and rate limiting, whatever text the exception
    carries, and with the text of the exception in every other case. *)
Theorem rejected_login_message
        (env : Env) (username password : string) (st : State) (e : exn) :
  session_file st = None ->
  up_login env (client_calls st) username password = Raise e ->
  InstagramClient.login env username password st
  = (Ok (false,
         Some (match e with
               | BadPassword _ => "Invalid password"
               | ChallengeRequired _ =>
                   "Challenge required - please verify your account in the Instagram app"
               | TwoFactorRequired _ =>
                   "Two-factor authentication required - not yet supported"
               | PleaseWaitFewMinutes _ =>
                   "Rate limited - please wait a few minutes and try again"
               | LoginRequired message | ValueError message | OtherException message =>
                   message
               | HTTPException _ _ => exn_str e
               end)),
     set_client_calls (client_calls st ++ [C_login username password]) st).
Proof.
  intros Hnone Hlogin. unfold_login. rewrite Hnone. simpl_state. rewrite Hlogin.
  destruct e; reflexivity.
Qed.

Lemma rejected_login_message_witness :
  InstagramClient.login Sample.hostile "alice" "wrong" Sample.fresh
  = (Ok (false, Some "Invalid password"),
     set_client_calls [C_login "alice" "wrong"] Sample.fresh).
Proof.
  exact (rejected_login_message Sample.hostile "alice" "wrong" Sample.fresh
           (BadPassword "bad_password") eq_refl eq_refl).
Defined.

(** ** More on logout and the DM operations *)

(** X11: logout.  It never raises; afterwards there is no identity, the
    client is a fresh one, the key files are as they were,
    [is_authenticated] answers false and every DM operation raises
    [LoginRequired] without calling the client. *)
Theorem logout_clears_identity (env : Env) (st : State) :
  fst (InstagramClient.logout st) = Ok tt
  /\ _logged_in_user (snd (InstagramClient.logout st)) = None
  /\ client_calls (snd (InstagramClient.logout st))
     = (client_calls st ++ [C_new_client])%list
  /\ private_pem (snd (InstagramClient.logout st)) = private_pem st
  /\ public_pem (snd (InstagramClient.logout st)) = public_pem st
  /\ fst (InstagramClient.is_authenticated (snd (InstagramClient.logout st))) = Ok false
  /\ (forall amount,
         InstagramClient.get_inbox env amount (snd (InstagramClient.logout st))
         = (Raise (LoginRequired "Not logged in"), snd (InstagramClient.logout st)))
  /\ (forall thread_id amount,
         InstagramClient.get_thread env thread_id amount (snd (InstagramClient.logout st))
         = (Raise (LoginRequired "Not logged in"), snd (InstagramClient.logout st)))
  /\ (forall thread_id text,
         InstagramClient.send_message env thread_id text (snd (InstagramClient.logout st))
         = (Raise (LoginRequired "Not logged in"), snd (InstagramClient.logout st)))
  /\ (forall handle text,
         InstagramClient.send_message_to_user env handle text
           (snd (InstagramClient.logout st))
         = (Raise (LoginRequired "Not logged in"), snd (InstagramClient.logout st)))
  /\ (forall handle,
         InstagramClient.search_user env handle (snd (InstagramClient.logout st))
         = (Raise (LoginRequired "Not logged in"), snd (InstagramClient.logout st))).
Proof.
  unfold InstagramClient.logout, Session.delete_session.
  cbv beta iota zeta delta [bind ret modify].
  simpl_state.
  repeat (split; [ reflexivity | ]).
  reflexivity.
Qed.

Ltac unfold_dm :=
  unfold Main.get_inbox, Main.get_thread, Main.send_message_to_thread,
    Main.send_message_to_user, Main.search_user, Main.reraise_login_required,
    InstagramClient.get_inbox, InstagramClient.get_thread,
    InstagramClient.send_message, InstagramClient.send_message_to_user,
    InstagramClient.search_user,
    Messages.get_inbox, Messages.get_thread, Messages.send_message,
    Messages.send_message_to_user, Messages.search_user;
  cbv beta iota zeta delta [bind try_except ret raise get_state modify lift client_call].

Ltac split_on_upstream :=
  repeat (simpl_state;
          match goal with
          | |- context [builtin_int ?e ?s] =>
              destruct (builtin_int e s) as [? | ?] eqn:?
          | |- context [up_direct_threads ?e ?l ?n] =>
              destruct (up_direct_threads e l n) as [? | ?] eqn:?
          | |- context [up_direct_thread ?e ?l ?t ?n] =>
              destruct (up_direct_thread e l t n) as [? | ?] eqn:?
          | |- context [up_direct_answer ?e ?l ?t ?x] =>
              destruct (up_direct_answer e l t x) as [? | ?] eqn:?
          | |- context [up_user_id_from_username ?e ?l ?u] =>
              destruct (up_user_id_from_username e l u) as [? | ?] eqn:?
          | |- context [up_direct_send ?e ?l ?x ?ids] =>
              destruct (up_direct_send e l x ids) as [? | ?] eqn:?
          | |- context [up_user_info_by_username ?e ?l ?u] =>
              destruct (up_user_info_by_username e l u) as [? | ?] eqn:?
          | |- context [match ?x with
                        | LoginRequired _ => _ | ChallengeRequired _ => _
                        | TwoFactorRequired _ => _ | BadPassword _ => _
                        | PleaseWaitFewMinutes _ => _ | ValueError _ => _
                        | HTTPException _ _ => _ | OtherException _ => _
                        end] => is_var x; destruct x
          end);
  simpl_state.

Ltac solve_dm_step :=
  unfold dm_step; simpl_state;
  repeat (split; [ reflexivity | ]);
  first
    [ solve [ exists []; split; [ now rewrite app_nil_r | constructor ] ]
    | solve [ eexists; split;
              [ rewrite <- ?app_assoc; cbn [app]; reflexivity | repeat constructor ] ] ].

(** X12: what a DM operation leaves alone.  Whether it succeeds or raises,
    a DM operation changes neither the identity, nor the saved session, nor
    the key files; all it does to the client is a number of DM calls, never
    a login, a restore or a dump.  In particular an upstream that answers
    [LoginRequired] does not log the server out. *)
Theorem dm_operations_change_only_the_log (env : Env) (st : State) :
  (forall amount, dm_step st (snd (InstagramClient.get_inbox env amount st)))
  /\ (forall thread_id amount,
         dm_step st (snd (InstagramClient.get_thread env thread_id amount st)))
  /\ (forall thread_id text,
         dm_step st (snd (InstagramClient.send_message env thread_id text st)))
  /\ (forall handle text,
         dm_step st (snd (InstagramClient.send_message_to_user env handle text st)))
  /\ (forall handle, dm_step st (snd (InstagramClient.search_user env handle st))).
Proof.
  split; [ | split; [ | split; [ | split ] ] ]; intros; unfold_dm;
    destruct (_logged_in_user st) as [user |] eqn:Huser;
    split_on_upstream; rewrite ?Huser; solve_dm_step.
Qed.


(** X14: user search hides every upstream failure.  On an authenticated
    server, when the upstream lookup raises, be it [LoginRequired] itself,
    the search returns no user, the endpoint answers 404 naming the handle
    without its leading ["@"], and the identity stays; when the lookup
    answers, the endpoint returns the parsed user. *)
Theorem search_user_hides_upstream_failure
        (env : Env) (st : State) (user : User) (handle : string) :
  _logged_in_user st = Some user ->
  (forall e,
      up_user_info_by_username env (client_calls st) (Py.lstrip "@"%char handle) = Raise e ->
      Main.search_user env handle st
      = (Raise (HTTPException 404
                  ("User '" ++ Py.lstrip "@"%char handle ++ "' not found")),
         set_client_calls
           (client_calls st ++ [C_user_info_by_username (Py.lstrip "@"%char handle)]) st)
      /\ fst (InstagramClient.search_user env (Py.lstrip "@"%char handle) st) = Ok None)
  /\ (forall info,
         up_user_info_by_username env (client_calls st) (Py.lstrip "@"%char handle) = Ok info ->
         fst (Main.search_user env handle st) = Ok (Parsers.parse_user info)).
Proof.
  intro Huser. split.
  - intros e Hlookup. unfold_dm. rewrite Huser, Hlookup. split; reflexivity.
  - intros info Hlookup. unfold_dm. rewrite Huser, Hlookup. reflexivity.
Qed.

Lemma search_user_hides_upstream_failure_witness :
  fst (Main.search_user Scenario.expired "@bob" Sample.logged_in)
  = Raise (HTTPException 404 "User 'bob' not found")
  /\ _logged_in_user (snd (Main.search_user Scenario.expired "@bob" Sample.logged_in))
     = Some (Parsers.parse_user Sample.alice).
Proof.
  pose proof (search_user_hides_upstream_failure Scenario.expired Sample.logged_in
                (Parsers.parse_user Sample.alice) "@bob" eq_refl) as [Hfail _].
  destruct (Hfail (LoginRequired "login_required") eq_refl) as [Hsearch _].
  rewrite Hsearch. split; reflexivity.
Defined.

(** X15: a thread identifier that is not a number.  On an authenticated
    server, when [int(thread_id)] raises, the thread endpoint and the
    send-to-thread endpoint do not call the client at all: the state is
    unchanged and the answer is a 200 answer with [success] false and the
    text of the exception. *)
Theorem malformed_thread_id_is_reported
        (env : Env) (st : State) (user : User) (thread_id message : string) :
  _logged_in_user st = Some user ->
  builtin_int env thread_id = Raise (ValueError message) ->
  (forall limit,
      Main.get_thread env thread_id limit st
      = (Ok {| thread_success := false; thread_thread := None;
               thread_error := Some message |}, st))
  /\ (forall request,
         Main.send_message_to_thread env thread_id request st
         = (Ok {| send_success := false; send_message := None;
                  send_error := Some message |}, st)).
Proof.
  intros Huser Hint. split; intros; unfold_dm; rewrite Huser, Hint; reflexivity.
Qed.

Lemma malformed_thread_id_is_reported_witness :
  Main.get_thread Sample.friendly "not-a-number" 20 Sample.logged_in
  = (Ok {| thread_success := false; thread_thread := None;
           thread_error :=
             Some "invalid literal for int() with base 10: 'not-a-number'" |},
     Sample.logged_in).
Proof.
  exact (proj1 (malformed_thread_id_is_reported Sample.friendly Sample.logged_in
                  (Parsers.parse_user Sample.alice) "not-a-number"
                  "invalid literal for int() with base 10: 'not-a-number'"
                  eq_refl eq_refl) 20).
Defined.

(** X16: sending to a user by handle.  On an authenticated server the
    handle is resolved first; when the resolution raises, nothing is sent;
    when it answers an identifier, the message goes to exactly that
    identifier, with the text given, and the sent message is normalized
    relative to the current identity. *)
Theorem send_to_user_resolves_then_sends
        (env : Env) (st : State) (user : User) (handle text : string) :
  _logged_in_user st = Some user ->
  (forall e,
      up_user_id_from_username env (client_calls st) handle = Raise e ->
      InstagramClient.send_message_to_user env handle text st
      = (Raise e,
         set_client_calls (client_calls st ++ [C_user_id_from_username handle]) st))
  /\ (forall target,
         up_user_id_from_username env (client_calls st) handle = Ok target ->
         client_calls (snd (InstagramClient.send_message_to_user env handle text st))
         = (client_calls st
            ++ [C_user_id_from_username handle; C_direct_send text [target]])%list
         /\ forall sent,
             up_direct_send env (client_calls st ++ [C_user_id_from_username handle])
                            text [target] = Ok sent ->
             fst (InstagramClient.send_message_to_user env handle text st)
             = Ok (Parsers.parse_message sent (Some (pk user)))).
Proof.
  intro Huser. split.
  - intros e Hresolve. unfold_dm. rewrite Huser, Hresolve. reflexivity.
  - intros target Hresolve. unfold_dm. rewrite Huser, Hresolve. simpl_state. split.
    + destruct (up_direct_send env (client_calls st ++ [C_user_id_from_username handle])
                               text [target]);
        simpl_state; now rewrite <- app_assoc.
    + intros sent Hsend. now rewrite Hsend.
Qed.

Lemma send_to_user_resolves_then_sends_witness :
  client_calls
    (snd (InstagramClient.send_message_to_user Sample.hostile "nobody" "hi"
            Sample.logged_in))
  = [C_user_id_from_username "nobody"]
  /\ client_calls
       (snd (InstagramClient.send_message_to_user Sample.friendly "bob" "hi"
               Sample.logged_in))
     = [C_user_id_from_username "bob"; C_direct_send "hi" ["17841400000000002"]].
Proof.
  pose proof (send_to_user_resolves_then_sends Sample.hostile Sample.logged_in
                (Parsers.parse_user Sample.alice) "nobody" "hi" eq_refl) as [Hfail _].
  pose proof (send_to_user_resolves_then_sends Sample.friendly Sample.logged_in
                (Parsers.parse_user Sample.alice) "bob" "hi" eq_refl) as [_ Hok].
  split.
  - rewrite (Hfail _ eq_refl). reflexivity.
  - exact (proj1 (Hok _ eq_refl)).
Defined.

(** ** More on the key files and the login endpoint *)

(** X17: the public key the server hands out is stable.  With both key
    files on disk nothing is generated and the public-key endpoint returns
    the stored public key, leaving the state as it is.  When a key file is
    missing, a pair is generated and both files are written, also the one
    that was there; if the generation fails, so does the endpoint.  In
    every case, once the endpoint has returned a key, asking again returns
    the same key and changes nothing. *)
Theorem public_key_is_stable (env : Env) (st : State) :
  (forall priv pub,
      private_pem st = Some priv -> public_pem st = Some pub ->
      Main.get_public_key env st = (Ok {| public_key := pub |}, st)
      /\ Crypto.ensure_keys_exist env st = (Ok tt, st))
  /\ (private_pem st = None \/ public_pem st = None ->
      (forall priv pub,
          rsa_generate env = Ok (priv, pub) ->
          Main.get_public_key env st
          = (Ok {| public_key := pub |}, set_keys (Some priv) (Some pub) st))
      /\ (forall e,
             rsa_generate env = Raise e ->
             fst (Main.get_public_key env st) = Raise e))
  /\ (forall response st',
         Main.get_public_key env st = (Ok response, st') ->
         Main.get_public_key env st' = (Ok response, st')
         /\ only_keys_change st st').
Proof.
  unfold Main.get_public_key, Crypto.get_public_key_pem, Crypto.ensure_keys_exist.
  cbv beta iota zeta delta [bind ret raise get_state modify lift].
  split; [ | split ].
  - intros priv pub Hpriv Hpub. rewrite Hpriv, Hpub. cbv beta iota.
    rewrite Hpub. split; reflexivity.
  - intros Hmissing. split.
    + intros priv pub Hgenerate.
      destruct Hmissing as [H | H]; rewrite H;
        destruct (private_pem st); destruct (public_pem st);
        try discriminate H; rewrite Hgenerate; reflexivity.
    + intros e Hgenerate.
      destruct Hmissing as [H | H]; rewrite H;
        destruct (private_pem st); destruct (public_pem st);
        try discriminate H; rewrite Hgenerate; reflexivity.
  - intros response st'.
    destruct (private_pem st) as [priv |] eqn:Hpriv;
      destruct (public_pem st) as [pub |] eqn:Hpub; cbv beta iota;
      rewrite ?Hpub;
      try (destruct (rsa_generate env) as [[priv' pub'] | e]; simpl_state);
      intro H; inversion H; subst; simpl_state;
      rewrite ?Hpriv, ?Hpub; cbv beta iota; simpl_state; rewrite ?Hpub;
      repeat split.
Qed.

Lemma public_key_is_stable_witness :
  Main.get_public_key Sample.friendly Sample.fresh
  = (Ok {| public_key := "public-pem" |}, Sample.fresh)
  /\ Main.get_public_key Sample.friendly Scenario.half_keys
     = (Ok {| public_key := "public-pem" |},
        set_keys (Some "private-pem") (Some "public-pem") Scenario.half_keys)
  /\ fst (Main.get_public_key Scenario.read_only_disk Scenario.empty_disk)
     = Raise (OtherException "Read-only file system").
Proof.
  pose proof (public_key_is_stable Sample.friendly Sample.fresh) as (Hpresent & _).
  pose proof (public_key_is_stable Sample.friendly Scenario.half_keys) as (_ & Hhalf & _).
  pose proof (public_key_is_stable Scenario.read_only_disk Scenario.empty_disk)
    as (_ & Hempty & _).
  split; [ | split ].
  - exact (proj1 (Hpresent _ _ eq_refl eq_refl)).
  - exact (proj1 (Hhalf (or_intror eq_refl)) _ _ eq_refl).
  - exact (proj2 (Hempty (or_introl eq_refl)) _ eq_refl).
Defined.

(** With the key files on disk, decrypting leaves the state as it is. *)
Lemma decrypt_password_state (env : Env) (encrypted_base64 : string) (st : State) :
  private_pem st <> None -> public_pem st <> None ->
  snd (Crypto.decrypt_password env encrypted_base64 st) = st.
Proof.
  intros Hpriv Hpub.
  unfold Crypto.decrypt_password, Crypto.ensure_keys_exist,
    Crypto.decrypt_with_private_key.
  cbv beta iota zeta delta [bind try_except ret raise get_state lift modify].
  destruct (private_pem st) as [pem |] eqn:Epriv; [ | now elim Hpriv ].
  destruct (public_pem st) as [pub |]; [ | now elim Hpub ].
  cbv beta iota. rewrite Epriv.
  destruct (rsa_decrypt env pem encrypted_base64); reflexivity.
Qed.

Lemma or_str_not_empty (x : option string) (d : string) :
  d <> "" -> Py.or_str x d <> "".
Proof.
  intro Hd. destruct x as [[| a s] |]; cbn; [ exact Hd | discriminate | exact Hd ].
Qed.

(** The endpoint once the password is chosen: success with the current
    identity, or 401 with a detail that is not empty. *)
Lemma login_then_respond (env : Env) (username password : string) (st : State) :
  (exists user,
      fst (bind (InstagramClient.login env username password) Main.login_response st)
      = Ok {| login_success := true; login_user := Some user;
              login_message := Some "Login successful" |}
      /\ _logged_in_user
           (snd (bind (InstagramClient.login env username password)
                      Main.login_response st))
         = Some user)
  \/ (exists detail,
         fst (bind (InstagramClient.login env username password) Main.login_response st)
         = Raise (HTTPException 401 detail)
         /\ detail <> ""
         /\ _logged_in_user
              (snd (bind (InstagramClient.login env username password)
                         Main.login_response st))
            = _logged_in_user st).
Proof.
  unfold Main.login_response, InstagramClient.get_current_user. unfold_login.
  destruct (session_file st) as [blob |] eqn:Hfile; split_on_client;
    first
      [ solve [ left; eexists; split; reflexivity ]
      | solve [ right; eexists; split; [ reflexivity | ];
                split; [ apply or_str_not_empty; discriminate | reflexivity ] ] ].
Qed.

(** X18: what the login endpoint can answer.  With the key files on disk
    there are three outcomes.  Success: the answer carries a user, and that
    user is the current identity.  400: the request carried no password or
    an undecryptable one, and the state is untouched.  401: the login
    failed, the identity is the one from before, and the detail of the
    error is never empty. *)
Theorem login_endpoint_outcomes (env : Env) (st : State) (request : LoginRequest) :
  private_pem st <> None -> public_pem st <> None ->
  (exists user,
      fst (Main.login env request st)
      = Ok {| login_success := true; login_user := Some user;
              login_message := Some "Login successful" |}
      /\ _logged_in_user (snd (Main.login env request st)) = Some user)
  \/ (exists detail,
         Main.login env request st = (Raise (HTTPException 400 detail), st))
  \/ (exists detail,
         fst (Main.login env request st) = Raise (HTTPException 401 detail)
         /\ detail <> ""
         /\ _logged_in_user (snd (Main.login env request st)) = _logged_in_user st).
Proof.
  intros Hpriv Hpub.
  assert (Hrest : forall password,
             Main.login env request st
             = bind (InstagramClient.login env (req_username request) password)
                    Main.login_response st ->
             (exists user,
                 fst (Main.login env request st)
                 = Ok {| login_success := true; login_user := Some user;
                         login_message := Some "Login successful" |}
                 /\ _logged_in_user (snd (Main.login env request st)) = Some user)
             \/ (exists detail,
                    Main.login env request st = (Raise (HTTPException 400 detail), st))
             \/ (exists detail,
                    fst (Main.login env request st) = Raise (HTTPException 401 detail)
                    /\ detail <> ""
                    /\ _logged_in_user (snd (Main.login env request st))
                       = _logged_in_user st)).
  { intros password ->.
    destruct (login_then_respond env (req_username request) password st) as [H | H];
      [ left | right; right ]; exact H. }
  unfold Main.login, Main.choose_password in *.
  destruct (Py.truthy_str (req_encrypted_password request)).
  - pose proof (decrypt_password_state env (req_encrypted_password request) st Hpriv Hpub)
      as Hstate.
    destruct (Crypto.decrypt_password env (req_encrypted_password request) st)
      as [[p | e] s1] eqn:Hdecrypt; cbn [snd] in Hstate; subst s1.
    + apply (Hrest p). unfold bind at 1 3. unfold try_except. now rewrite Hdecrypt.
    + destruct (decrypt_password_failure env _ st st e Hpriv Hpub Hdecrypt) as [-> _].
      right. left. eexists.
      unfold bind at 1. unfold try_except. rewrite Hdecrypt. reflexivity.
  - destruct (Py.truthy_str (req_password request)).
    + apply (Hrest (req_password request)). reflexivity.
    + right. left. eexists. reflexivity.
Qed.

Lemma login_endpoint_outcomes_witness :
  Main.http_status
    (fst (Main.login Sample.hostile
            {| req_username := "alice"; req_password := "wrong";
               req_encrypted_password := "" |} Sample.logged_in)) = 401
  /\ _logged_in_user
       (snd (Main.login Sample.hostile
               {| req_username := "alice"; req_password := "wrong";
                  req_encrypted_password := "" |} Sample.logged_in))
     = Some (Parsers.parse_user Sample.alice).
Proof.
  assert (Hpriv : private_pem Sample.logged_in <> None) by discriminate.
  assert (Hpub : public_pem Sample.logged_in <> None) by discriminate.
  destruct (login_endpoint_outcomes Sample.hostile Sample.logged_in
              {| req_username := "alice"; req_password := "wrong";
                 req_encrypted_password := "" |} Hpriv Hpub)
    as [[user [Hok _]] | [[detail Hbad] | [detail [Hfail [_ Hidentity]]]]].
  - discriminate Hok.
  - discriminate Hbad.
  - split; [ reflexivity | exact Hidentity ].
Defined.

(** X19: a request without an encrypted password never touches the key
    files, present or missing: with a plaintext password the endpoint is
    the login run with that password, and with no password at all it
    answers 400 and does nothing. *)
Theorem plaintext_login_needs_no_keys (env : Env) (st : State) (request : LoginRequest) :
  req_encrypted_password request = "" ->
  private_pem (snd (Main.login env request st)) = private_pem st
  /\ public_pem (snd (Main.login env request st)) = public_pem st
  /\ (req_password request <> "" ->
      Main.login env request st
      = bind (InstagramClient.login env (req_username request) (req_password request))
             Main.login_response st)
  /\ (req_password request = "" ->
      Main.login env request st
      = (Raise (HTTPException 400 "Either password or encrypted_password is required"),
         st)).
Proof.
  intro Hempty.
  assert (Hplain : req_password request <> "" ->
                   Main.login env request st
                   = bind (InstagramClient.login env (req_username request)
                             (req_password request))
                          Main.login_response st).
  { intro Hne. unfold Main.login, Main.choose_password. rewrite Hempty.
    cbn [Py.truthy_str]. now rewrite (proj2 (truthy_str_true _) Hne). }
  assert (Hnone : req_password request = "" ->
                  Main.login env request st
                  = (Raise (HTTPException 400
                              "Either password or encrypted_password is required"), st)).
  { intro He. unfold Main.login, Main.choose_password. rewrite Hempty, He. reflexivity. }
  assert (Hkeys : private_pem (snd (Main.login env request st)) = private_pem st
                  /\ public_pem (snd (Main.login env request st)) = public_pem st).
  { destruct (req_password request) as [| a rest] eqn:Hpassword.
    - rewrite (Hnone eq_refl). split; reflexivity.
    - rewrite (Hplain ltac:(discriminate)).
      unfold Main.login_response, InstagramClient.get_current_user. unfold_login.
      destruct (session_file st) as [blob |] eqn:Hfile; split_on_client;
        split; reflexivity. }
  destruct Hkeys as [Hprivate Hpublic].
  repeat split; assumption.
Qed.

Lemma plaintext_login_needs_no_keys_witness :
  private_pem
    (snd (Main.login Sample.friendly
            {| req_username := "alice"; req_password := "pw";
               req_encrypted_password := "" |} Scenario.empty_disk)) = None
  /\ Main.login Sample.friendly
       {| req_username := "alice"; req_password := ""; req_encrypted_password := "" |}
       Scenario.empty_disk
     = (Raise (HTTPException 400 "Either password or encrypted_password is required"),
        Scenario.empty_disk).
Proof.
  pose proof (plaintext_login_needs_no_keys Sample.friendly Scenario.empty_disk
                {| req_username := "alice"; req_password := "pw";
                   req_encrypted_password := "" |} eq_refl) as (Hkeys & _).
  pose proof (plaintext_login_needs_no_keys Sample.friendly Scenario.empty_disk
                {| req_username := "alice"; req_password := "";
                   req_encrypted_password := "" |} eq_refl) as (_ & _ & _ & Hnone).
  split; [ exact Hkeys | exact (Hnone eq_refl) ].
Defined.

(** X20: the startup of the server.  The key files are ensured first: if
    that fails the startup fails before any login.  Without a username or
    without a password in the environment (missing or empty) nothing else
    happens.  With both, and the key files on disk, the startup is the
    login with these credentials, and it returns whether the login succeeds
    or not: a failed auto-login does not stop the server. *)
Theorem startup_auto_login
        (env : Env) (st : State) (ig_username ig_password : option string) :
  (Py.truthy_ostr ig_username = false \/ Py.truthy_ostr ig_password = false ->
   Main.lifespan_startup env ig_username ig_password st
   = Crypto.ensure_keys_exist env st)
  /\ (forall e,
         fst (Crypto.ensure_keys_exist env st) = Raise e ->
         fst (Main.lifespan_startup env ig_username ig_password st) = Raise e
         /\ client_calls (snd (Main.lifespan_startup env ig_username ig_password st))
            = client_calls st
         /\ _logged_in_user (snd (Main.lifespan_startup env ig_username ig_password st))
            = _logged_in_user st)
  /\ (forall username password,
         ig_username = Some username -> ig_password = Some password ->
         username <> "" -> password <> "" ->
         private_pem st <> None -> public_pem st <> None ->
         fst (Main.lifespan_startup env ig_username ig_password st) = Ok tt
         /\ snd (Main.lifespan_startup env ig_username ig_password st)
            = snd (InstagramClient.login env username password st)).
Proof.
  split; [ | split ].
  - intro Hmissing. unfold Main.lifespan_startup. unfold bind.
    destruct (Crypto.ensure_keys_exist env st) as [[[] | e] s1]; [ | reflexivity ].
    destruct ig_username as [username |]; destruct ig_password as [password |];
      cbn [Py.truthy_ostr] in Hmissing; try reflexivity.
    destruct Hmissing as [H | H]; rewrite H; rewrite ?andb_false_r; reflexivity.
  - intros e Hensure.
    pose proof (ensure_keys_exist_keys_step env st) as (Hcalls & Hidentity & _).
    unfold Main.lifespan_startup. unfold bind.
    destruct (Crypto.ensure_keys_exist env st) as [[[] | e0] s1];
      cbn [fst snd] in *; [ discriminate Hensure | ].
    inversion Hensure; subst. repeat split; assumption.
  - intros username password -> -> Hu Hp Hpriv Hpub.
    assert (Hensure : Crypto.ensure_keys_exist env st = (Ok tt, st)).
    { unfold Crypto.ensure_keys_exist.
      cbv beta iota zeta delta [bind ret get_state modify lift].
      destruct (private_pem st); [ | now elim Hpriv ].
      destruct (public_pem st); [ reflexivity | now elim Hpub ]. }
    assert (Hrun : Main.lifespan_startup env (Some username) (Some password) st
                   = bind (InstagramClient.login env username password)
                          (fun _ => ret tt) st).
    { unfold Main.lifespan_startup. unfold bind at 1. rewrite Hensure.
      rewrite (proj2 (truthy_str_true username) Hu),
        (proj2 (truthy_str_true password) Hp).
      reflexivity. }
    rewrite Hrun. unfold bind.
    destruct (client_login_returns env username password st) as [answer Hanswer].
    destruct (InstagramClient.login env username password st) as [[r | e] s1];
      cbn [fst snd] in *; [ split; reflexivity | discriminate Hanswer ].
Qed.

Lemma startup_auto_login_witness :
  Main.lifespan_startup Sample.friendly None (Some "pw") Sample.fresh
  = (Ok tt, Sample.fresh)
  /\ fst (Main.lifespan_startup Scenario.read_only_disk (Some "alice") (Some "pw")
            Scenario.empty_disk)
     = Raise (OtherException "Read-only file system")
  /\ fst (Main.lifespan_startup Sample.hostile (Some "alice") (Some "wrong") Sample.fresh)
     = Ok tt.
Proof.
  pose proof (startup_auto_login Sample.friendly Sample.fresh None (Some "pw"))
    as (Hnone & _).
  pose proof (startup_auto_login Scenario.read_only_disk Scenario.empty_disk
                (Some "alice") (Some "pw")) as (_ & Hkeys & _).
  pose proof (startup_auto_login Sample.hostile Sample.fresh
                (Some "alice") (Some "wrong")) as (_ & _ & Hlogin).
  split; [ | split ].
  - rewrite (Hnone (or_introl eq_refl)). reflexivity.
  - exact (proj1 (Hkeys _ eq_refl)).
  - exact (proj1 (Hlogin "alice" "wrong" eq_refl eq_refl
                    ltac:(discriminate) ltac:(discriminate)
                    ltac:(discriminate) ltac:(discriminate))).
Defined.

(** X21: which key decrypts.  With both key files on disk the payload is
    decrypted with the stored private key and the state is left alone.
    When a key file is missing, a new pair is generated and written first,
    and the payload is decrypted with the new private key.  Either way the
    plaintext returned is the one the RSA primitive gives, and every failure
    of the primitive is the one [ValueError]. *)
Theorem decrypt_password_uses_key_on_disk
        (env : Env) (st : State) (encrypted_base64 : string) :
  (forall priv pub,
      private_pem st = Some priv -> public_pem st = Some pub ->
      Crypto.decrypt_password env encrypted_base64 st
      = (match rsa_decrypt env priv encrypted_base64 with
         | Ok plaintext => Ok plaintext
         | Raise _ => Raise (ValueError "Failed to decrypt password")
         end, st))
  /\ (private_pem st = None \/ public_pem st = None ->
      forall priv pub,
        rsa_generate env = Ok (priv, pub) ->
        Crypto.decrypt_password env encrypted_base64 st
        = (match rsa_decrypt env priv encrypted_base64 with
           | Ok plaintext => Ok plaintext
           | Raise _ => Raise (ValueError "Failed to decrypt password")
           end, set_keys (Some priv) (Some pub) st)).
Proof.
  unfold Crypto.decrypt_password, Crypto.ensure_keys_exist,
    Crypto.decrypt_with_private_key.
  cbv beta iota zeta delta [bind try_except ret raise get_state lift modify].
  split.
  - intros priv pub Hpriv Hpub. rewrite Hpriv, Hpub. cbv beta iota. rewrite Hpriv.
    destruct (rsa_decrypt env priv encrypted_base64); reflexivity.
  - intros Hmissing priv pub Hgenerate.
    destruct Hmissing as [H | H]; rewrite H;
      destruct (private_pem st); destruct (public_pem st);
      try discriminate H; rewrite Hgenerate; simpl_state;
      destruct (rsa_decrypt env priv encrypted_base64); reflexivity.
Qed.

Lemma decrypt_password_uses_key_on_disk_witness :
  Crypto.decrypt_password Sample.friendly "Y2lwaGVy" Sample.fresh
  = (Ok "s3cret", Sample.fresh)
  /\ Crypto.decrypt_password Scenario.expired "Y2lwaGVy" Scenario.half_keys
     = (Raise (ValueError "Failed to decrypt password"),
        set_keys (Some "new-private-pem") (Some "new-public-pem") Scenario.half_keys).
Proof.
  pose proof (decrypt_password_uses_key_on_disk Sample.friendly Sample.fresh "Y2lwaGVy")
    as [Hdisk _].
  pose proof (decrypt_password_uses_key_on_disk Scenario.expired Scenario.half_keys
                "Y2lwaGVy") as [_ Hnew].
  split.
  - exact (Hdisk _ _ eq_refl eq_refl).
  - exact (Hnew (or_intror eq_refl) _ _ eq_refl).
Defined.
